(** * The activations buffer of [buffer.py]

    A shallow embedding of [ActivationsBufferConfig] and [ActivationsBuffer]
    and the properties of the refill / read protocol.

    Python integers are unbounded, so cursors and sizes are [Z].  The model,
    the corpus and torch's random generator are collaborators: they are the
    fields of a [World].  Exceptions are values of [exn]; the [while] loop
    of [refresh] is driven by fuel. *)

From Stdlib Require Import ZArith List Lia Bool String DecimalString.
Import ListNotations.
Open Scope Z_scope.

(** ** Python values, exceptions and sequence primitives *)

Module Py.

Inductive exn : Type :=
| AssertionError (msg : string)
| ZeroDivisionError
| TypeError
| IndexError
| RuntimeError.

(** The outcome of running a piece of code: it returns, it raises, or the
    fuel given to a loop has run out. *)
Inductive result (A : Type) : Type :=
| Ok (a : A)
| Raise (e : exn)
| OutOfFuel.

Arguments Ok {A} a.
Arguments Raise {A} e.
Arguments OutOfFuel {A}.

Definition bind {A B : Type} (r : result A) (k : A -> result B) : result B :=
  match r with
  | Ok a => k a
  | Raise e => Raise e
  | OutOfFuel => OutOfFuel
  end.

(** The values the [layers] argument is tried with: Python does not type
    arguments, so the constructor can be handed anything. *)
Inductive pyatom : Type :=
| PyNone
| PyInt (z : Z)
| PyStr (s : string).

Inductive pyobj : Type :=
| PyAtom (a : pyatom)
| PyList (items : list pyatom).

(** [isinstance(x, list)] *)
Definition is_list (x : pyobj) : bool :=
  match x with
  | PyList _ => true
  | PyAtom _ => false
  end.

(** [a > b], as [max] uses it: defined between two ints and between two
    strs, a [TypeError] otherwise. *)
Definition gt (a b : pyatom) : result bool :=
  match a, b with
  | PyInt x, PyInt y => Ok (y <? x)
  | PyStr s, PyStr t => Ok (String.ltb t s)
  | _, _ => Raise TypeError
  end.

(** [max] of a non-empty list, the running maximum being [cur]. *)
Fixpoint max_from (cur : pyatom) (l : list pyatom) : result pyatom :=
  match l with
  | [] => Ok cur
  | x :: r =>
      bind (gt x cur) (fun b => max_from (if b then x else cur) r)
  end.

(** [str(x)] inside an f-string. *)
Definition str (x : pyatom) : string :=
  match x with
  | PyNone => "None"
  | PyInt z => NilZero.string_of_int (Z.to_int z)
  | PyStr s => s
  end.

(** [x + 1] *)
Definition succ (x : pyatom) : result Z :=
  match x with
  | PyInt z => Ok (z + 1)
  | _ => Raise TypeError
  end.

(** Truthiness of an optional int: [None] and [0] are false. *)
Definition truthy (x : option Z) : bool :=
  match x with
  | None => false
  | Some z => negb (z =? 0)
  end.

(** [x or 1] for an optional int. *)
Definition or_1 (x : option Z) : Z :=
  match x with
  | Some z => if z =? 0 then 1 else z
  | None => 1
  end.

(** [ceil(a / b)] on ints.  The true division goes through a float; the
    ceiling below is the exact one, which it agrees with for operands
    under 2^53. *)
Definition ceil_div (a b : Z) : result Z :=
  if b =? 0 then Raise ZeroDivisionError else Ok (- ((- a) / b)).

(** [a % n] *)
Definition modulo (a n : Z) : result Z :=
  if n =? 0 then Raise ZeroDivisionError else Ok (a mod n).

Definition len {A : Type} (l : list A) : Z := Z.of_nat (List.length l).

(** A slice bound [i] of a sequence of length [n]: negative bounds count
    from the end, and both kinds are clamped to the sequence. *)
Definition clamp (n i : Z) : Z :=
  if i <? 0 then Z.max 0 (i + n) else Z.min i n.

(** [l[start:stop]]: never raises, shorter than [stop - start] when the
    bounds leave the sequence. *)
Definition slice {A : Type} (l : list A) (start stop : Z) : list A :=
  let s := clamp (len l) start in
  let e := clamp (len l) stop in
  firstn (Z.to_nat (e - s)) (skipn (Z.to_nat s) l).

End Py.

Import Py.

Notation "x <- c ;; k" := (bind c (fun x => k))
  (at level 61, c at next level, right associativity).

(** ** ActivationsBufferConfig *)

(** The fields of the config the buffer reads.  [device] and [dtype] are
    handed to torch untouched and are left out. *)
Record ActivationsBufferConfig : Type := {
  model_name : string;
  layers : list pyatom;
  dataset_name : string;
  act_names : list string;
  dataset_split : option string;
  buffer_size : Z;
  min_capacity : Z;
  model_batch_size : Z;
  samples_per_seq : Z;
  act_size : option Z;
  seed : option Z;
  final_layer : pyatom
}.

Definition assert_layers_msg : string := "layers must be a non-empty list of ints".

(** [f"blocks.{layer}.{act_site}"] *)
Definition act_name (act_site : string) (layer : pyatom) : string :=
  ("blocks." ++ str layer ++ "." ++ act_site)%string.

(** [ActivationsBufferConfig.__init__].  The only check is the assertion on
    [layers]; [max(layers)] raises on items that do not compare. *)
Definition Config__init__
    (model_name : string) (layers : pyobj) (dataset_name : string)
    (act_site : string) (dataset_split : option string)
    (buffer_size min_capacity model_batch_size samples_per_seq : Z)
    (act_size seed : option Z) : result ActivationsBufferConfig :=
  match layers with
  | PyList (l0 :: ls) =>
      fl <- max_from l0 ls ;;
      Ok {| model_name := model_name;
            layers := l0 :: ls;
            dataset_name := dataset_name;
            act_names := map (act_name act_site) (l0 :: ls);
            dataset_split := dataset_split;
            buffer_size := buffer_size;
            min_capacity := min_capacity;
            model_batch_size := model_batch_size;
            samples_per_seq := samples_per_seq;
            act_size := act_size;
            seed := seed;
            final_layer := fl |}
  | _ => Raise (AssertionError assert_layers_msg)
  end.

(** [cfg.act_size = v] *)
Definition set_act_size (c : ActivationsBufferConfig) (v : Z) : ActivationsBufferConfig :=
  {| model_name := model_name c;
     layers := layers c;
     dataset_name := dataset_name c;
     act_names := act_names c;
     dataset_split := dataset_split c;
     buffer_size := buffer_size c;
     min_capacity := min_capacity c;
     model_batch_size := model_batch_size c;
     samples_per_seq := samples_per_seq c;
     act_size := Some v;
     seed := seed c;
     final_layer := final_layer c |}.

(** The invariant the specification states for a config. *)
Definition config_invariant (c : ActivationsBufferConfig) : Prop :=
  layers c <> [] /\
  0 < buffer_size c /\ 0 < min_capacity c /\
  0 < model_batch_size c /\ 0 < samples_per_seq c /\
  min_capacity c < buffer_size c.

(** [layers] is a list of ints. *)
Definition is_int (x : pyatom) : bool :=
  match x with
  | PyInt _ => true
  | _ => false
  end.

Definition list_of_ints (x : pyobj) : bool :=
  match x with
  | PyList l => forallb is_int l
  | PyAtom _ => false
  end.

(** ** Tensors *)

(** A slot of the store: the zero fill of [torch.zeros], or an activation
    block (layers x width) sampled from the model.  The scalars are
    bfloat16 and are not looked into. *)
Inductive slot (act : Type) : Type :=
| Zero
| Sampled (a : act).

Arguments Zero {act}.
Arguments Sampled {act} a.

(** A tensor of shape (len rows, fst dims, snd dims).  [tid] is the identity
    of the tensor object: two tensors with the same [tid] are the same
    object, a newly built tensor gets an unused [tid]. *)
Record tensor (act : Type) : Type := {
  tid : nat;
  dims : Z * Z;
  rows : list (slot act)
}.

Arguments tid {act} t.
Arguments dims {act} t.
Arguments rows {act} t.

(** What [run_with_cache] gives back once the cached tensors are stacked on
    a layers axis: [pos] positions per sequence, blocks of the given
    [width], the block of sequence [b] at position [p] being [at_ b p].
    The batch axis is as long as the list of sequences that was run. *)
Record cache (act : Type) : Type := {
  pos : nat;
  width : Z;
  at_ : nat -> nat -> act
}.

Arguments pos {act} c.
Arguments width {act} c.
Arguments at_ {act} c b p.

(** What [next] returns: [buffer[i]] of shape (layers, width), or
    [buffer[i:j]] of shape (n, layers, width). *)
Inductive output (act : Type) : Type :=
| Single (d : Z * Z) (r : slot act)
| Batch (d : Z * Z) (rs : list (slot act)).

Arguments Single {act} d r.
Arguments Batch {act} d rs.

Definition shape {act : Type} (o : output act) : list Z :=
  match o with
  | Single d _ => [fst d; snd d]
  | Batch d rs => [len rs; fst d; snd d]
  end.

Definition vectors {act : Type} (o : output act) : list (slot act) :=
  match o with
  | Single _ r => [r]
  | Batch _ rs => rs
  end.

(** One dimension of a source broadcasts to one of a destination. *)
Definition broadcasts (src dst : Z) : bool := (src =? dst) || (src =? 1).

(** [torch.zeros((n, l, w))] as the object [id]. *)
Definition zeros {act : Type} (id : nat) (n l w : Z) : result (tensor act) :=
  if (n <? 0) || (l <? 0) || (w <? 0) then Raise RuntimeError
  else Ok {| tid := id; dims := (l, w); rows := repeat Zero (Z.to_nat n) |}.

(** The integers torch takes for a shift: those of 64 bits. *)
Definition int64 (z : Z) : Prop := - 2 ^ 63 <= z < 2 ^ 63.

(** [torch.roll(t, shift, 0)]: a new tensor [id] whose row [i] is row
    [(i - shift) mod n] of [t].  This is the result for a shift that is
    [int64]; torch raises on any other, which [roll] does not model. *)
Definition roll {act : Type} (id : nat) (t : tensor act) (shift : Z) : tensor act :=
  let n := len (rows t) in
  let k := if n =? 0 then 0%nat else Z.to_nat ((- shift) mod n) in
  {| tid := id; dims := dims t; rows := skipn k (rows t) ++ firstn k (rows t) |}.

(** [t[i]] *)
Definition getitem {act : Type} (t : tensor act) (i : Z) : result (output act) :=
  let n := len (rows t) in
  if (- n <=? i) && (i <? n)
  then match nth_error (rows t) (Z.to_nat (i mod n)) with
       | Some r => Ok (Single (dims t) r)
       | None => Raise IndexError
       end
  else Raise IndexError.

(** [t[start:stop]] *)
Definition getslice {act : Type} (t : tensor act) (start stop : Z) : output act :=
  Batch (dims t) (slice (rows t) start stop).

(** [t[start:stop] = src], in place: [t] keeps its identity and its shape.
    The source, of shape (len src, fst sdims, snd sdims), has to broadcast
    to the slice. *)
Definition setslice {act : Type} (t : tensor act) (start stop : Z)
    (sdims : Z * Z) (src : list act) : result (tensor act) :=
  let n := len (rows t) in
  let s := clamp n start in
  let k := Z.max 0 (clamp n stop - s) in
  if broadcasts (len src) k && broadcasts (fst sdims) (fst (dims t))
     && broadcasts (snd sdims) (snd (dims t))
  then
    let written :=
      if len src =? k then map Sampled src
      else flat_map (fun a => repeat (Sampled a) (Z.to_nat k)) src in
    Ok {| tid := tid t;
          dims := dims t;
          rows := firstn (Z.to_nat s) (rows t) ++ written
                  ++ skipn (Z.to_nat (s + k)) (rows t) |}
  else Raise RuntimeError.

(** ** The collaborators *)

Record World : Type := {
  text : Type;   (* an item of dataset['text'] *)
  act : Type;    (* an activation block, one per sequence position *)
  gen : Type;    (* the state of torch's global random generator *)
  manual_seed : Z -> gen;                      (* torch.manual_seed *)
  randperm : gen -> nat -> list nat * gen;     (* torch.randperm *)
  load_dataset : string -> option string -> list text;
  shuffle : Z -> list text -> list text;       (* Dataset.shuffle *)
  d_mlp : Z;                                   (* model.cfg.d_mlp *)
  run_with_cache : list text -> Z -> list string -> cache act
}.

(** ** ActivationsBuffer *)

Definition refresh_notice : string := "Refreshing the buffer!".
Definition assert_pointer_msg : string := "Buffer pointer should be 0 after refresh".

Section Buffer.

Variable W : World.

(** The object's attributes, then the state of the process the methods
    reach: the global random generator, the lines printed so far and the
    next unused tensor identity. *)
Record ActivationsBuffer : Type := {
  cfg : ActivationsBufferConfig;
  dataset_pointer : Z;
  dataset : list (text W);
  buffer : tensor (act W);
  buffer_pointer : Z;
  rng : gen W;
  stdout : list string;
  next_tid : nat
}.

(** The state of the process a buffer is constructed in: the generator as
    it stands, and the seed [shuffle] draws when it is given none. *)
Record process : Type := {
  ambient_rng : gen W;
  ambient_seed : Z;
  printed : list string;
  unused_tid : nat
}.

(** [self.dataset['text'][p : p + batch_size]] at the corpus cursor [p]. *)
Definition round_seqs (st : ActivationsBuffer) (batch_size : Z) : list (text W) :=
  slice (dataset st) (dataset_pointer st) (dataset_pointer st + batch_size).

(** The activations of a round, (batch * samples, layers, width): the
    model is run on [seqs], one draw of [randperm] picks the positions
    kept for every sequence, and batch and sample axes are flattened. *)
Definition round_acts (st : ActivationsBuffer) (seqs : list (text W)) (stop : Z)
    : list (act W) :=
  let cached := run_with_cache W seqs stop (act_names (cfg st)) in
  let perm := fst (randperm W (rng st) (pos cached)) in
  let idx := slice perm 0 (samples_per_seq (cfg st)) in
  flat_map (fun b => map (at_ cached b) idx) (seq 0 (List.length seqs)).

(** One round of the loop of [refresh]. *)
Definition refresh_round (st : ActivationsBuffer) : result ActivationsBuffer :=
  let c := cfg st in
  q <- ceil_div (buffer_pointer st) (samples_per_seq c) ;;
  let batch_size := Z.min q (model_batch_size c) in
  let seqs := round_seqs st batch_size in
  dp <- modulo (dataset_pointer st + batch_size) (len (dataset st)) ;;
  stop <- succ (final_layer c) ;;
  let cached := run_with_cache W seqs stop (act_names c) in
  let acts := round_acts st seqs stop in
  let write_pointer := buffer_size c - buffer_pointer st in
  let new_acts := Z.min (len acts) (buffer_pointer st) in
  buf <- setslice (buffer st) write_pointer (write_pointer + len acts)
           (len (act_names c), width cached) (slice acts 0 new_acts) ;;
  Ok {| cfg := c;
        dataset_pointer := dp;
        dataset := dataset st;
        buffer := buf;
        buffer_pointer := buffer_pointer st - new_acts;
        rng := snd (randperm W (rng st) (pos cached));
        stdout := stdout st;
        next_tid := next_tid st |}.

(** [while self.buffer_pointer > 0: ...] *)
Fixpoint refresh_loop (fuel : nat) (st : ActivationsBuffer) : result ActivationsBuffer :=
  if 0 <? buffer_pointer st then
    match fuel with
    | O => OutOfFuel
    | S fuel' => st' <- refresh_round st ;; refresh_loop fuel' st'
    end
  else Ok st.

(** [self.buffer = torch.roll(self.buffer, -self.buffer_pointer, 0)] *)
Definition rebind_rolled (st : ActivationsBuffer) : ActivationsBuffer :=
  {| cfg := cfg st;
     dataset_pointer := dataset_pointer st;
     dataset := dataset st;
     buffer := roll (next_tid st) (buffer st) (- buffer_pointer st);
     buffer_pointer := buffer_pointer st;
     rng := rng st;
     stdout := stdout st;
     next_tid := S (next_tid st) |}.

(** [ActivationsBuffer.refresh] *)
Definition refresh (fuel : nat) (st : ActivationsBuffer) : result ActivationsBuffer :=
  st' <- refresh_loop fuel (rebind_rolled st) ;;
  if buffer_pointer st' =? 0 then Ok st'
  else Raise (AssertionError assert_pointer_msg).

(** [print(line)] *)
Definition print (line : string) (st : ActivationsBuffer) : ActivationsBuffer :=
  {| cfg := cfg st;
     dataset_pointer := dataset_pointer st;
     dataset := dataset st;
     buffer := buffer st;
     buffer_pointer := buffer_pointer st;
     rng := rng st;
     stdout := stdout st ++ [line];
     next_tid := next_tid st |}.

(** [self.buffer_pointer += n] *)
Definition advance (n : Z) (st : ActivationsBuffer) : ActivationsBuffer :=
  {| cfg := cfg st;
     dataset_pointer := dataset_pointer st;
     dataset := dataset st;
     buffer := buffer st;
     buffer_pointer := buffer_pointer st + n;
     rng := rng st;
     stdout := stdout st;
     next_tid := next_tid st |}.

(** The test that opens [next]. *)
Definition low_water (st : ActivationsBuffer) (batch : option Z) : bool :=
  buffer_size (cfg st) - (buffer_pointer st + or_1 batch) <? min_capacity (cfg st).

(** [ActivationsBuffer.next] *)
Definition next (fuel : nat) (st : ActivationsBuffer) (batch : option Z)
    : result (output (act W) * ActivationsBuffer) :=
  st1 <- (if low_water st batch
          then refresh fuel (print refresh_notice st)
          else Ok st) ;;
  out <- match batch with
         | None => getitem (buffer st1) (buffer_pointer st1)
         | Some b => Ok (getslice (buffer st1) (buffer_pointer st1)
                                  (buffer_pointer st1 + b))
         end ;;
  Ok (out, advance (or_1 batch) st1).

(** [if cfg.seed: torch.manual_seed(cfg.seed)] *)
Definition seed_torch (c : ActivationsBufferConfig) (g : gen W) : gen W :=
  match seed c with
  | Some s => if truthy (seed c) then manual_seed W s else g
  | None => g
  end.

(** [load_dataset(...).shuffle(seed=cfg.seed).flatten_indices()]: with no
    seed, [shuffle] draws one from the process. *)
Definition shuffled_corpus (c : ActivationsBufferConfig) (drawn : Z) : list (text W) :=
  let s := match seed c with Some s => s | None => drawn end in
  shuffle W s (load_dataset W (dataset_name c) (dataset_split c)).

(** The config after [if cfg.act_size is None: self.cfg.act_size = ...] *)
Definition resolve_act_size (c : ActivationsBufferConfig) : ActivationsBufferConfig :=
  match act_size c with
  | None => set_act_size c (d_mlp W)
  | Some _ => c
  end.

Definition resolved_width (c : ActivationsBufferConfig) : Z :=
  match act_size c with
  | None => d_mlp W
  | Some w => w
  end.

(** The buffer as [__init__] has it just before its call of [refresh]. *)
Definition allocate (p : process) (c : ActivationsBufferConfig) : result ActivationsBuffer :=
  let g := seed_torch c (ambient_rng p) in
  let ds := shuffled_corpus c (ambient_seed p) in
  let c' := resolve_act_size c in
  buf <- zeros (unused_tid p) (buffer_size c') (len (layers c')) (resolved_width c) ;;
  Ok {| cfg := c';
        dataset_pointer := 0;
        dataset := ds;
        buffer := buf;
        buffer_pointer := buffer_size c';
        rng := g;
        stdout := printed p;
        next_tid := S (unused_tid p) |}.

(** [ActivationsBuffer.__init__] *)
Definition Buffer__init__ (fuel : nat) (p : process) (c : ActivationsBufferConfig)
    : result ActivationsBuffer :=
  st <- allocate p c ;;
  refresh fuel st.

(** The activations the rounds of [refresh] sample, in the order in which
    they reach the store.  Round after round the model is run on the
    sequences at the corpus cursor [dp], the positions drawn from [g] are
    kept for every sequence, and of the blocks sampled the deficit [d]
    takes what it still asks for.  At most [n] rounds are run; the store
    plays no part. *)
Fixpoint refilled (n : nat) (c : ActivationsBufferConfig) (stop : Z)
    (ds : list (text W)) (dp : Z) (g : gen W) (d : Z) : list (act W) :=
  match n with
  | O => []
  | S n' =>
      if 0 <? d then
        let batch_size := Z.min (- ((- d) / samples_per_seq c)) (model_batch_size c) in
        let seqs := slice ds dp (dp + batch_size) in
        let cached := run_with_cache W seqs stop (act_names c) in
        let idx := slice (fst (randperm W g (pos cached))) 0 (samples_per_seq c) in
        let acts :=
          flat_map (fun b => map (at_ cached b) idx) (seq 0 (List.length seqs)) in
        let new_acts := Z.min (len acts) d in
        slice acts 0 new_acts
        ++ refilled n' c stop ds ((dp + batch_size) mod len ds)
             (snd (randperm W g (pos cached))) (d - new_acts)
      else []
  end.

(** [n] reads [next(batch)] in a row; the outputs come oldest first. *)
Fixpoint reads (fuel : nat) (n : nat) (batch : option Z) (st : ActivationsBuffer)
    : result (list (output (act W)) * ActivationsBuffer) :=
  match n with
  | O => Ok ([], st)
  | S n' =>
      r <- next fuel st batch ;;
      r' <- reads fuel n' batch (snd r) ;;
      Ok (fst r :: fst r', snd r')
  end.

End Buffer.

Arguments cfg {W} a.
Arguments dataset_pointer {W} a.
Arguments dataset {W} a.
Arguments buffer {W} a.
Arguments buffer_pointer {W} a.
Arguments rng {W} a.
Arguments stdout {W} a.
Arguments next_tid {W} a.

(** ** Well-formed states *)

Definition is_sampled {A : Type} (r : slot A) : Prop :=
  match r with
  | Zero => False
  | Sampled _ => True
  end.

(** What the buffer relies on from its collaborators: [randperm n] has [n]
    entries, the model gives every sequence of a non-empty batch at least
    one position, and the captured activations have width [wd]. *)
Record well_behaved (W : World) (wd : Z) : Prop := {
  randperm_len : forall g n, List.length (fst (randperm W g n)) = n;
  run_pos : forall seqs stop names,
      seqs <> [] -> (0 < pos (run_with_cache W seqs stop names))%nat;
  run_width : forall seqs stop names,
      width (run_with_cache W seqs stop names) = wd
}.

(** A buffer whose config, corpus and store fit together: what
    construction sets up and every method keeps. *)
Record ready {W : World} (wd : Z) (st : ActivationsBuffer W) : Prop := {
  ready_samples : 0 < samples_per_seq (cfg st);
  ready_batch : 0 < model_batch_size (cfg st);
  ready_final : is_int (final_layer (cfg st)) = true;
  ready_names : len (act_names (cfg st)) = len (layers (cfg st));
  ready_width : act_size (cfg st) = Some wd;
  ready_corpus : 0 <= dataset_pointer st < len (dataset st);
  ready_rows : len (rows (buffer st)) = buffer_size (cfg st);
  ready_dims : dims (buffer st) = (len (layers (cfg st)), wd);
  ready_tid : (tid (buffer st) < next_tid st)%nat
}.

(** A config and a process a buffer can be built from: non-negative
    capacity and width, positive batch size and samples per sequence, the
    derived fields as the config constructor computes them from int
    layers, a corpus that is not empty and well-behaved collaborators. *)
Record constructible (W : World) (p : process W) (c : ActivationsBufferConfig) : Prop := {
  cons_size : 0 <= buffer_size c;
  cons_width : 0 <= resolved_width W c;
  cons_samples : 0 < samples_per_seq c;
  cons_batch : 0 < model_batch_size c;
  cons_final : is_int (final_layer c) = true;
  cons_names : len (act_names c) = len (layers c);
  cons_corpus : shuffled_corpus W c (ambient_seed W p) <> [];
  cons_world : well_behaved W (resolved_width W c)
}.

(** The read cursor is within the store. *)
Definition cursor_in_range {W : World} (st : ActivationsBuffer W) : Prop :=
  0 <= buffer_pointer st <= buffer_size (cfg st).

(** [st'] is [st] with its store written in place and its cursors moved:
    the config, the corpus, the output and the store object are the same. *)
Definition in_place {W : World} (st st' : ActivationsBuffer W) : Prop :=
  cfg st' = cfg st /\ dataset st' = dataset st /\ stdout st' = stdout st /\
  next_tid st' = next_tid st /\ tid (buffer st') = tid (buffer st) /\
  dims (buffer st') = dims (buffer st).


(** ** A small world to run the code in *)

Module Toy.

(** Rotate a list left by [k]. *)
Definition rotl {A : Type} (k : nat) (l : list A) : list A :=
  skipn (k mod List.length l) l ++ firstn (k mod List.length l) l.

(** Sequences are numbered; every sequence has six positions; the block
    at position [p] of sequence [s] is the pair [(s, p)].  The generator
    state is an integer, [randperm] rotates [0 .. n-1] by it and steps
    it; [shuffle] rotates the corpus by the seed.  The corpus has five
    sequences. *)
Definition world : World :=
  {| text := nat;
     act := nat * nat;
     gen := Z;
     manual_seed := fun s => s;
     randperm := fun g n => (rotl (Z.to_nat (Z.abs g)) (seq 0 n), g + 1);
     load_dataset := fun _ _ => [0; 1; 2; 3; 4]%nat;
     shuffle := fun s l => rotl (Z.to_nat (Z.abs s)) l;
     d_mlp := 8;
     run_with_cache := fun seqs _ _ =>
       {| pos := 6; width := 8; at_ := fun b p => (nth b seqs 0%nat, p) |} |}.

Definition proc (g : Z) : process world :=
  Build_process world g 0 [] 0.

(** [ActivationsBufferConfig("toy", layers, "corpus", buffer_size=..., ...)] *)
Definition config (layers : pyobj) (size min_cap mbs sps : Z) (seed : option Z)
    : result ActivationsBufferConfig :=
  Config__init__ "toy" layers "corpus" "mlp.hook_pre" None size min_cap mbs sps None seed.

Definition two_layers : pyobj := PyList [PyInt 0; PyInt 1].

(** The scenario of the specification: capacity 16, minimum capacity 4,
    four samples per sequence, batches of two, two layers, width 8. *)
Definition cfg16 : result ActivationsBufferConfig := config two_layers 16 4 2 4 (Some 7).

Definition buffer16 : result (ActivationsBuffer world) :=
  c <- cfg16 ;; Buffer__init__ world 16 (proc 0) c.

(** A buffer of capacity 4 that refills when fewer than 2 would be left. *)
Definition cfg4 : result ActivationsBufferConfig := config two_layers 4 2 2 4 (Some 7).

Definition buffer4 : result (ActivationsBuffer world) :=
  c <- cfg4 ;; Buffer__init__ world 4 (proc 0) c.

(** The config [cfg4] builds, once the buffer has set its [act_size]. *)
Definition resolved4 : ActivationsBufferConfig :=
  {| model_name := "toy";
     layers := [PyInt 0; PyInt 1];
     dataset_name := "corpus";
     act_names := ["blocks.0.mlp.hook_pre"; "blocks.1.mlp.hook_pre"]%string;
     dataset_split := None;
     buffer_size := 4;
     min_capacity := 2;
     model_batch_size := 2;
     samples_per_seq := 4;
     act_size := Some 8;
     seed := Some 7;
     final_layer := PyInt 1 |}.

(** The buffer [buffer4] builds: one sequence was run, four of its
    positions fill the store. *)
Definition state4 : ActivationsBuffer world :=
  Build_ActivationsBuffer world resolved4 1 [2; 3; 4; 0; 1]%nat
    {| tid := 1; dims := (2, 8);
       rows := [Sampled (2, 1); Sampled (2, 2); Sampled (2, 3); Sampled (2, 4)]%nat |}
    0 8 [] 2.

(** [state4] after two reads of one vector: the cursor is at the mark. *)
Definition state4_at_mark : ActivationsBuffer world := advance world 2 state4.

(** The same construction with seed 0. *)
Definition cfg4_seed0 : result ActivationsBufferConfig := config two_layers 4 2 2 4 (Some 0).

(** A buffer whose corpus cursor is one short of the end of the corpus:
    [buffer16] after twelve vectors were read. *)
Definition state16_end_of_corpus : result (ActivationsBuffer world) :=
  st <- buffer16 ;; Ok (advance world 12 st).


(** The toy world with a model whose activations have width 3. *)
Definition narrow_world : World :=
  {| text := nat;
     act := nat * nat;
     gen := Z;
     manual_seed := fun s => s;
     randperm := fun g n => (rotl (Z.to_nat (Z.abs g)) (seq 0 n), g + 1);
     load_dataset := fun _ _ => [0; 1; 2; 3; 4]%nat;
     shuffle := fun s l => rotl (Z.to_nat (Z.abs s)) l;
     d_mlp := 3;
     run_with_cache := fun seqs _ _ =>
       {| pos := 6; width := 3; at_ := fun b p => (nth b seqs 0%nat, p) |} |}.

(** The buffer [__init__] has allocated for [resolved4], whose [act_size]
    is 8, in [narrow_world], before the first round of its refill. *)
Definition narrow_state4 : ActivationsBuffer narrow_world :=
  Build_ActivationsBuffer narrow_world resolved4 0 [2; 3; 4; 0; 1]%nat
    {| tid := 1; dims := (2, 8); rows := [Zero; Zero; Zero; Zero] |}
    4 7 [] 2.

(** A config of capacity 0, and the buffer built from it. *)
Definition resolved0 : ActivationsBufferConfig :=
  {| model_name := "toy";
     layers := [PyInt 0; PyInt 1];
     dataset_name := "corpus";
     act_names := ["blocks.0.mlp.hook_pre"; "blocks.1.mlp.hook_pre"]%string;
     dataset_split := None;
     buffer_size := 0;
     min_capacity := 0;
     model_batch_size := 2;
     samples_per_seq := 4;
     act_size := Some 8;
     seed := Some 7;
     final_layer := PyInt 1 |}.

Definition state0 : ActivationsBuffer world :=
  Build_ActivationsBuffer world resolved0 0 [2; 3; 4; 0; 1]%nat
    {| tid := 1; dims := (2, 8); rows := [] |}
    0 7 [] 2.

End Toy.

(** * Properties *)

(** ** Slices *)

Section Slices.

Context {A : Type}.
Implicit Types l : list A.

Lemma len_nonneg l : 0 <= len l.
Proof. unfold len. lia. Qed.

Lemma slice_empty l (a : Z) : slice l a a = [].
Proof. unfold slice. rewrite Z.sub_diag. reflexivity. Qed.

Lemma slice_forward l (a b : Z) :
  0 <= a <= b ->
  slice l a b = firstn (Z.to_nat (b - a)) (skipn (Z.to_nat a) l).
Proof.
  intros H. unfold slice, clamp, len.
  destruct (a <? 0) eqn:Ha; [apply Z.ltb_lt in Ha; lia|].
  destruct (b <? 0) eqn:Hb; [apply Z.ltb_lt in Hb; lia|].
  destruct (Z.le_gt_cases (Z.of_nat (List.length l)) a) as [Hal | Hal].
  - rewrite !(skipn_all2 l) by lia. now rewrite !firstn_nil.
  - replace (Z.min a (Z.of_nat (List.length l))) with a by lia.
    destruct (Z.le_gt_cases b (Z.of_nat (List.length l))) as [Hbl | Hbl].
    + now replace (Z.min b (Z.of_nat (List.length l))) with b by lia.
    + replace (Z.min b (Z.of_nat (List.length l))) with (Z.of_nat (List.length l)) by lia.
      rewrite !firstn_all2; try reflexivity; rewrite length_skipn; lia.
Qed.

Lemma slice_prefix l (k : Z) :
  0 <= k -> slice l 0 k = firstn (Z.to_nat k) l.
Proof.
  intros H. rewrite slice_forward by lia.
  now rewrite Z.sub_0_r.
Qed.

Lemma len_slice_forward l (a b : Z) :
  0 <= a <= b ->
  len (slice l a b) = Z.min (b - a) (Z.max 0 (len l - a)).
Proof.
  intros H. rewrite slice_forward by assumption.
  unfold len. rewrite length_firstn, length_skipn. lia.
Qed.

Lemma len_firstn l (k : Z) :
  0 <= k <= len l -> len (firstn (Z.to_nat k) l) = k.
Proof. unfold len. intros H. rewrite length_firstn. lia. Qed.

End Slices.

(** ** Tensor primitives *)

Section Tensors.

Context {A : Type}.
Implicit Types t : tensor A.

Lemma clamp_range (n i : Z) : 0 <= n -> 0 <= clamp n i <= n.
Proof. unfold clamp. destruct (i <? 0) eqn:E; [apply Z.ltb_lt in E | apply Z.ltb_ge in E]; lia. Qed.

Lemma clamp_nonneg (n i : Z) : 0 <= i -> clamp n i = Z.min i n.
Proof. unfold clamp. destruct (i <? 0) eqn:E; [apply Z.ltb_lt in E; lia | reflexivity]. Qed.

Lemma broadcasts_refl (d : Z) : broadcasts d d = true.
Proof. unfold broadcasts. now rewrite Z.eqb_refl. Qed.

Lemma len_broadcast_rows (src : list A) (k : Z) :
  0 <= k -> broadcasts (len src) k = true ->
  len (if len src =? k then map Sampled src
       else flat_map (fun a => repeat (Sampled a) (Z.to_nat k)) src) = k.
Proof.
  intros Hk Hb. destruct (len src =? k) eqn:E.
  - apply Z.eqb_eq in E. unfold len in *. now rewrite length_map.
  - unfold broadcasts in Hb. rewrite E in Hb. simpl in Hb. apply Z.eqb_eq in Hb.
    destruct src as [|x [|y r]]; unfold len in Hb; simpl in Hb; try lia.
    simpl. rewrite app_nil_r. unfold len. rewrite repeat_length. lia.
Qed.

(** An in-place slice assignment keeps the object and its shape. *)
Lemma setslice_in_place t (a b : Z) (d : Z * Z) (src : list A) t' :
  setslice t a b d src = Ok t' ->
  tid t' = tid t /\ dims t' = dims t /\ len (rows t') = len (rows t).
Proof.
  unfold setslice. intros H.
  destruct (broadcasts (len src) _ && _ && _) eqn:E; [|discriminate].
  apply andb_prop in E as [E _]. apply andb_prop in E as [E _].
  injection H as <-. simpl. repeat split.
  pose proof (len_nonneg (rows t)) as Hn.
  pose proof (clamp_range (len (rows t)) a Hn) as Hs.
  pose proof (clamp_range (len (rows t)) b Hn) as He.
  set (s := clamp (len (rows t)) a) in *.
  set (k := Z.max 0 (clamp (len (rows t)) b - s)) in *.
  assert (Hk : 0 <= k) by (subst k; lia).
  pose proof (len_broadcast_rows src k Hk E) as Hw.
  unfold len in *. rewrite !length_app, length_firstn, length_skipn.
  subst k. lia.
Qed.

(** Writing [src] at [wp], the slice reaching to [wp + n] or to the end of
    the tensor, whichever comes first. *)
Lemma setslice_at t (wp n : Z) (d : Z * Z) (src : list A) :
  0 <= wp <= len (rows t) -> 0 <= n ->
  len src = Z.min n (len (rows t) - wp) ->
  broadcasts (fst d) (fst (dims t)) = true ->
  broadcasts (snd d) (snd (dims t)) = true ->
  setslice t wp (wp + n) d src =
    Ok {| tid := tid t;
          dims := dims t;
          rows := firstn (Z.to_nat wp) (rows t) ++ map Sampled src
                  ++ skipn (Z.to_nat (wp + len src)) (rows t) |}.
Proof.
  intros Hwp Hn Hsrc Hd1 Hd2. unfold setslice.
  rewrite !clamp_nonneg by lia.
  replace (Z.min wp (len (rows t))) with wp by lia.
  replace (Z.max 0 (Z.min (wp + n) (len (rows t)) - wp)) with (len src) by lia.
  rewrite broadcasts_refl, Hd1, Hd2, Z.eqb_refl. reflexivity.
Qed.

Lemma roll_shape (id : nat) t (shift : Z) :
  tid (roll id t shift) = id /\ dims (roll id t shift) = dims t /\
  len (rows (roll id t shift)) = len (rows t).
Proof.
  unfold roll, len. simpl. repeat split.
  rewrite length_app, length_firstn, length_skipn. lia.
Qed.

(** Rolling left by the read cursor brings the unread rows to the front. *)
Lemma roll_unread_first t (id : nat) (p : Z) :
  0 <= p <= len (rows t) ->
  firstn (Z.to_nat (len (rows t) - p)) (rows (roll id t (- p))) =
  skipn (Z.to_nat p) (rows t).
Proof.
  intros Hp. unfold roll. simpl. rewrite Z.opp_involutive.
  destruct (len (rows t) =? 0) eqn:E0.
  - apply Z.eqb_eq in E0. replace p with 0 by lia.
    destruct (rows t); [reflexivity | unfold len in E0; simpl in E0; lia].
  - apply Z.eqb_neq in E0.
    destruct (Z.eq_dec p (len (rows t))) as [-> | Hne].
    + rewrite Z_mod_same_full, Z.sub_diag. simpl.
      rewrite skipn_all2; [reflexivity | unfold len; lia].
    + rewrite Z.mod_small by lia.
      rewrite firstn_app.
      rewrite firstn_all2 by (rewrite length_skipn; unfold len in *; lia).
      replace (Z.to_nat (len (rows t) - p) - List.length (skipn (Z.to_nat p) (rows t)))%nat
        with 0%nat by (rewrite length_skipn; unfold len in *; lia).
      simpl. now rewrite app_nil_r.
Qed.

End Tensors.

(** ** One round of the refill loop *)

Lemma length_flat_map_const {A B : Type} (f : A -> list B) (k : nat) (l : list A) :
  (forall x, List.length (f x) = k) ->
  List.length (flat_map f l) = (List.length l * k)%nat.
Proof.
  intros Hf. induction l as [|x l IH]; simpl; [reflexivity|].
  now rewrite length_app, Hf, IH.
Qed.

Lemma ceil_div_positive (a b : Z) :
  0 < a -> 0 < b -> exists q, ceil_div a b = Ok q /\ 1 <= q.
Proof.
  intros Ha Hb. unfold ceil_div.
  destruct (b =? 0) eqn:E; [apply Z.eqb_eq in E; lia|].
  eexists; split; [reflexivity|].
  assert (- a / b < 0) by (apply Z.div_lt_upper_bound; lia).
  lia.
Qed.

Lemma succ_int (x : pyatom) :
  is_int x = true -> exists z, succ x = Ok z.
Proof. destruct x; simpl; intros H; try discriminate. eauto. Qed.

Section Round.

Variable W : World.
Variable wd : Z.
Hypothesis HW : well_behaved W wd.

Implicit Types st : ActivationsBuffer W.

Lemma len_round_seqs st (bs : Z) :
  ready wd st -> 0 <= bs ->
  len (round_seqs W st bs) = Z.min bs (len (dataset st) - dataset_pointer st).
Proof.
  intros R Hbs. destruct (ready_corpus wd st R) as [Hlo Hhi].
  unfold round_seqs. rewrite len_slice_forward by lia. lia.
Qed.

Lemma len_round_acts st (seqs : list (text W)) (stop : Z) :
  0 <= samples_per_seq (cfg st) ->
  len (round_acts W st seqs stop) =
  len seqs * Z.min (samples_per_seq (cfg st))
                   (Z.of_nat (pos (run_with_cache W seqs stop (act_names (cfg st))))).
Proof.
  intros Hs. unfold round_acts, len.
  rewrite (length_flat_map_const _
             (List.length (slice (fst (randperm W (rng st)
                (pos (run_with_cache W seqs stop (act_names (cfg st))))))
                0 (samples_per_seq (cfg st))))).
  - rewrite length_seq, Nat2Z.inj_mul. f_equal.
    rewrite slice_prefix by assumption.
    rewrite length_firstn, (randperm_len W wd HW). lia.
  - intros b. now rewrite length_map.
Qed.

(** A round of a well-formed buffer with a deficit returns; it writes the
    first [min (len acts) deficit] sampled activations at
    [buffer_size - deficit] and nothing else. *)
Lemma refresh_round_spec st :
  ready wd st -> 0 < buffer_pointer st <= buffer_size (cfg st) ->
  exists q stop,
    ceil_div (buffer_pointer st) (samples_per_seq (cfg st)) = Ok q /\
    succ (final_layer (cfg st)) = Ok stop /\
    let batch_size := Z.min q (model_batch_size (cfg st)) in
    let seqs := round_seqs W st batch_size in
    let acts := round_acts W st seqs stop in
    let write_pointer := buffer_size (cfg st) - buffer_pointer st in
    let new_acts := Z.min (len acts) (buffer_pointer st) in
    1 <= batch_size /\ 1 <= new_acts /\
    refresh_round W st =
      Ok {| cfg := cfg st;
            dataset_pointer := (dataset_pointer st + batch_size) mod len (dataset st);
            dataset := dataset st;
            buffer :=
              {| tid := tid (buffer st);
                 dims := dims (buffer st);
                 rows := firstn (Z.to_nat write_pointer) (rows (buffer st))
                         ++ map Sampled (firstn (Z.to_nat new_acts) acts)
                         ++ skipn (Z.to_nat (write_pointer + new_acts)) (rows (buffer st)) |};
            buffer_pointer := buffer_pointer st - new_acts;
            rng := snd (randperm W (rng st)
                          (pos (run_with_cache W seqs stop (act_names (cfg st)))));
            stdout := stdout st;
            next_tid := next_tid st |}.
Proof.
  intros R Hbp.
  destruct (ceil_div_positive _ _ (proj1 Hbp) (ready_samples wd st R)) as (q & Hq & Hq1).
  destruct (succ_int _ (ready_final wd st R)) as (stop & Hstop).
  exists q, stop. split; [assumption|]. split; [assumption|].
  intros batch_size seqs acts write_pointer new_acts.
  pose proof (ready_batch wd st R) as Hmbs.
  pose proof (ready_samples wd st R) as Hsps.
  pose proof (ready_corpus wd st R) as Hdp.
  assert (Hbs : 1 <= batch_size) by (subst batch_size; lia).
  assert (Hseqs : 1 <= len seqs).
  { subst seqs. rewrite len_round_seqs by (assumption || lia). lia. }
  assert (Hne : seqs <> []).
  { intros E. rewrite E in Hseqs. unfold len in Hseqs. simpl in Hseqs. lia. }
  pose proof (run_pos W wd HW seqs stop (act_names (cfg st)) Hne) as Hpos.
  assert (Hacts : 1 <= len acts).
  { subst acts. rewrite len_round_acts by lia. nia. }
  assert (Hnew : 1 <= new_acts) by (subst new_acts; lia).
  split; [assumption|]. split; [assumption|].
  unfold refresh_round. rewrite Hq. cbn [bind].
  unfold modulo.
  destruct (len (dataset st) =? 0) eqn:E0; [apply Z.eqb_eq in E0; lia|].
  cbn [bind]. rewrite Hstop. cbn [bind].
  fold batch_size. fold seqs. fold acts. fold write_pointer. fold new_acts.
  rewrite (slice_prefix acts new_acts) by lia.
  rewrite (setslice_at (buffer st) write_pointer (len acts)).
  - simpl. rewrite len_firstn by lia. reflexivity.
  - rewrite (ready_rows wd st R). subst write_pointer. lia.
  - lia.
  - rewrite len_firstn by lia. rewrite (ready_rows wd st R).
    subst new_acts write_pointer. lia.
  - rewrite (ready_dims wd st R), (ready_names wd st R). simpl. apply broadcasts_refl.
  - rewrite (ready_dims wd st R), (run_width W wd HW). simpl. apply broadcasts_refl.
Qed.

End Round.

(** ** The refill loop *)

Section Refill.

Variable W : World.
Variable wd : Z.
Hypothesis HW : well_behaved W wd.

Implicit Types st : ActivationsBuffer W.

Lemma in_place_refl st : in_place st st.
Proof. repeat split. Qed.

Lemma in_place_trans st1 st2 st3 :
  in_place st1 st2 -> in_place st2 st3 -> in_place st1 st3.
Proof.
  unfold in_place. intros (a1 & a2 & a3 & a4 & a5 & a6) (b1 & b2 & b3 & b4 & b5 & b6).
  repeat split; congruence.
Qed.

(** A round keeps the buffer well formed, lowers the deficit, leaves the
    rows below the write position alone and extends the sampled prefix. *)
Lemma refresh_round_step st :
  ready wd st -> 0 < buffer_pointer st <= buffer_size (cfg st) ->
  exists st',
    refresh_round W st = Ok st' /\ ready wd st' /\ in_place st st' /\
    0 <= buffer_pointer st' < buffer_pointer st /\
    firstn (Z.to_nat (buffer_size (cfg st) - buffer_pointer st)) (rows (buffer st')) =
    firstn (Z.to_nat (buffer_size (cfg st) - buffer_pointer st)) (rows (buffer st)) /\
    (Forall is_sampled
       (firstn (Z.to_nat (buffer_size (cfg st) - buffer_pointer st)) (rows (buffer st))) ->
     Forall is_sampled
       (firstn (Z.to_nat (buffer_size (cfg st) - buffer_pointer st')) (rows (buffer st')))).
Proof.
  intros R Hbp.
  destruct (refresh_round_spec W wd HW st R Hbp) as (q & stop & Hq & Hstop & H).
  cbv zeta in H. destruct H as (Hbs & Hnew & ->).
  set (bs := Z.min q (model_batch_size (cfg st))) in *.
  set (acts := round_acts W st (round_seqs W st bs) stop) in *.
  set (new := Z.min (len acts) (buffer_pointer st)) in *.
  set (wp := buffer_size (cfg st) - buffer_pointer st) in *.
  pose proof (ready_rows wd st R) as Hrows.
  pose proof (ready_corpus wd st R) as Hdp.
  assert (Hwpl : List.length (firstn (Z.to_nat wp) (rows (buffer st))) = Z.to_nat wp).
  { rewrite length_firstn. unfold len in Hrows. subst wp. lia. }
  eexists. split; [reflexivity|]. simpl.
  split; [|split; [repeat split|split; [subst new; lia|split]]].
  - destruct R. constructor; simpl; try assumption.
    + apply Z.mod_pos_bound. lia.
    + unfold len in *. rewrite !length_app, length_map, !length_firstn, length_skipn.
      subst new wp. lia.
  - rewrite firstn_app, Hwpl, Nat.sub_diag. simpl.
    rewrite app_nil_r. now rewrite firstn_firstn, Nat.min_id.
  - intros Hpre.
    assert (Hlen : List.length (map (@Sampled (act W)) (firstn (Z.to_nat new) acts))
                   = Z.to_nat new).
    { rewrite length_map, length_firstn. unfold len in new. subst new. lia. }
    replace (Z.to_nat (buffer_size (cfg st) - (buffer_pointer st - new)))
      with (List.length (firstn (Z.to_nat wp) (rows (buffer st))) + Z.to_nat new)%nat
      by (rewrite Hwpl; subst wp new; lia).
    rewrite firstn_app_2, firstn_app, Hlen, Nat.sub_diag.
    rewrite (@firstn_all2 _ (Z.to_nat new) (map _ _)) by lia. simpl. rewrite app_nil_r.
    apply Forall_app. split; [assumption|].
    apply Forall_map, Forall_forall. intros a _. exact I.
Qed.

End Refill.

Section RefillLoop.

Variable W : World.
Variable wd : Z.
Hypothesis HW : well_behaved W wd.

Implicit Types st : ActivationsBuffer W.

(** With fuel for one round per missing activation the loop returns, the
    deficit is gone, the rows that were below the write position are
    untouched and every row is sampled if those were. *)
Lemma refresh_loop_spec (fuel : nat) : forall st,
  ready wd st -> cursor_in_range st ->
  (Z.to_nat (buffer_pointer st) <= fuel)%nat ->
  exists st',
    refresh_loop W fuel st = Ok st' /\ ready wd st' /\ in_place st st' /\
    buffer_pointer st' = 0 /\
    firstn (Z.to_nat (buffer_size (cfg st) - buffer_pointer st)) (rows (buffer st')) =
    firstn (Z.to_nat (buffer_size (cfg st) - buffer_pointer st)) (rows (buffer st)) /\
    (Forall is_sampled
       (firstn (Z.to_nat (buffer_size (cfg st) - buffer_pointer st)) (rows (buffer st))) ->
     Forall is_sampled (rows (buffer st'))).
Proof.
  assert (Hdone : forall f st, ready wd st -> buffer_pointer st = 0 ->
    exists st',
      refresh_loop W f st = Ok st' /\ ready wd st' /\ in_place st st' /\
      buffer_pointer st' = 0 /\
      firstn (Z.to_nat (buffer_size (cfg st) - buffer_pointer st)) (rows (buffer st')) =
      firstn (Z.to_nat (buffer_size (cfg st) - buffer_pointer st)) (rows (buffer st)) /\
      (Forall is_sampled
         (firstn (Z.to_nat (buffer_size (cfg st) - buffer_pointer st)) (rows (buffer st))) ->
       Forall is_sampled (rows (buffer st')))).
  { intros f st R E. exists st.
    split; [destruct f; simpl; rewrite E; reflexivity|].
    split; [assumption|]. split; [apply in_place_refl|].
    split; [assumption|]. split; [reflexivity|].
    rewrite E, Z.sub_0_r, <- (ready_rows wd st R). unfold len.
    rewrite Nat2Z.id, firstn_all. trivial. }
  induction fuel as [|fuel IH]; intros st R [Hlo Hhi] Hfuel.
  - apply Hdone; [assumption | lia].
  - simpl. destruct (0 <? buffer_pointer st) eqn:E.
    + apply Z.ltb_lt in E.
      destruct (refresh_round_step W wd HW st R (conj E Hhi))
        as (st1 & Hr & R1 & F1 & Hbp1 & Hkeep1 & Hs1).
      rewrite Hr. simpl.
      assert (Hc : cfg st1 = cfg st) by apply F1.
      destruct (IH st1 R1) as (st' & Hl & R' & F' & Hz & Hkeep' & Hs').
      { unfold cursor_in_range. rewrite Hc. lia. }
      { lia. }
      exists st'. split; [assumption|]. split; [assumption|].
      split; [eapply in_place_trans; eassumption|]. split; [assumption|].
      rewrite Hc in Hkeep', Hs'. split.
      * rewrite <- Hkeep1.
        replace (Z.to_nat (buffer_size (cfg st) - buffer_pointer st))
          with (Nat.min (Z.to_nat (buffer_size (cfg st) - buffer_pointer st))
                        (Z.to_nat (buffer_size (cfg st) - buffer_pointer st1))) by lia.
        rewrite <- !firstn_firstn. now rewrite Hkeep'.
      * intros Hpre. apply Hs', Hs1, Hpre.
    + apply Z.ltb_ge in E.
      destruct (Hdone (S fuel) st R) as (st' & Hl & H'); [lia|].
      exists st'. split; [|assumption].
      rewrite <- Hl. simpl. apply Z.ltb_ge in E. now rewrite E.
Qed.

Lemma ready_rebind_rolled st :
  ready wd st -> ready wd (rebind_rolled W st).
Proof.
  intros R. pose proof (roll_shape (next_tid st) (buffer st) (- buffer_pointer st))
    as (Ht & Hd & Hl).
  destruct R. constructor; try assumption.
  - change (len (rows (roll (next_tid st) (buffer st) (- buffer_pointer st)))
            = buffer_size (cfg st)).
    now rewrite Hl.
  - change (tid (roll (next_tid st) (buffer st) (- buffer_pointer st))
            < S (next_tid st))%nat.
    rewrite Ht. lia.
Qed.

(** [refresh] on a well-formed buffer whose cursor is in range: with fuel
    for the deficit it returns, the cursor is 0, the store is a new
    object of the same shape that starts with the rows that were unread,
    and every row is sampled if the unread ones were. *)
Lemma refresh_spec (fuel : nat) st :
  ready wd st -> cursor_in_range st ->
  (Z.to_nat (buffer_pointer st) <= fuel)%nat ->
  exists st',
    refresh W fuel st = Ok st' /\ ready wd st' /\
    buffer_pointer st' = 0 /\
    cfg st' = cfg st /\ dataset st' = dataset st /\ stdout st' = stdout st /\
    next_tid st' = S (next_tid st) /\ tid (buffer st') = next_tid st /\
    firstn (Z.to_nat (buffer_size (cfg st) - buffer_pointer st)) (rows (buffer st')) =
    skipn (Z.to_nat (buffer_pointer st)) (rows (buffer st)) /\
    (Forall is_sampled (skipn (Z.to_nat (buffer_pointer st)) (rows (buffer st))) ->
     Forall is_sampled (rows (buffer st'))).
Proof.
  intros R Hin Hfuel.
  pose proof (ready_rebind_rolled st R) as R1.
  destruct (refresh_loop_spec fuel (rebind_rolled W st) R1 Hin Hfuel)
    as (st' & Hl & R' & F & Hz & Hkeep & Hs).
  destruct F as (F1 & F2 & F3 & F4 & F5 & F6).
  cbn [rebind_rolled cfg dataset stdout next_tid buffer buffer_pointer] in *.
  rewrite (proj1 (roll_shape _ _ _)) in F5.
  assert (Hroll :
    firstn (Z.to_nat (buffer_size (cfg st) - buffer_pointer st))
           (rows (roll (next_tid st) (buffer st) (- buffer_pointer st))) =
    skipn (Z.to_nat (buffer_pointer st)) (rows (buffer st))).
  { rewrite <- (ready_rows wd st R). apply roll_unread_first.
    rewrite (ready_rows wd st R). exact Hin. }
  exists st'. unfold refresh. rewrite Hl. simpl. rewrite Hz. simpl.
  repeat (split; [assumption || reflexivity|]).
  split; [now rewrite Hkeep|].
  intros Hpre. apply Hs. now rewrite Hroll.
Qed.

End RefillLoop.

(** ** Construction and reads *)

Section Methods.

Variable W : World.

Implicit Types st : ActivationsBuffer W.

Lemma ready_print (wd : Z) (line : string) st :
  ready wd st -> ready wd (print W line st).
Proof. intros R. destruct R. constructor; assumption. Qed.

Lemma ready_advance (wd : Z) (n : Z) st :
  ready wd st -> ready wd (advance W n st).
Proof. intros R. destruct R. constructor; assumption. Qed.

Lemma resolve_act_size_fields (c : ActivationsBufferConfig) :
  let c' := resolve_act_size W c in
  layers c' = layers c /\ act_names c' = act_names c /\
  buffer_size c' = buffer_size c /\ min_capacity c' = min_capacity c /\
  model_batch_size c' = model_batch_size c /\
  samples_per_seq c' = samples_per_seq c /\
  final_layer c' = final_layer c /\ seed c' = seed c /\
  act_size c' = Some (resolved_width W c).
Proof.
  unfold resolve_act_size, resolved_width.
  destruct (act_size c) eqn:E; simpl; repeat split; assumption.
Qed.

(** Construction returns a well-formed buffer with the cursor at 0 and a
    store of [buffer_size] rows, all of them sampled. *)
Lemma init_spec (fuel : nat) (p : process W) (c : ActivationsBufferConfig) :
  constructible W p c ->
  (Z.to_nat (buffer_size c) <= fuel)%nat ->
  exists st,
    Buffer__init__ W fuel p c = Ok st /\
    ready (resolved_width W c) st /\
    buffer_pointer st = 0 /\
    cfg st = resolve_act_size W c /\
    stdout st = printed W p /\
    len (rows (buffer st)) = buffer_size c /\
    Forall is_sampled (rows (buffer st)).
Proof.
  intros C Hfuel.
  destruct C as [Csize Cwidth Csamples Cbatch Cfinal Cnames Ccorpus Cworld].
  destruct (resolve_act_size_fields c)
    as (Hl & Hn & Hb & Hm & Hmb & Hs & Hf & Hsd & Ha).
  unfold Buffer__init__, allocate, zeros.
  rewrite Hb.
  destruct ((buffer_size c <? 0) || (len (layers (resolve_act_size W c)) <? 0)
            || (resolved_width W c <? 0)) eqn:E.
  { apply orb_prop in E as [E | E]; [apply orb_prop in E as [E | E]|];
      apply Z.ltb_lt in E; unfold len in *; lia. }
  cbn [bind].
  match goal with |- context [refresh W fuel ?s] => set (st0 := s) end.
  assert (R0 : ready (resolved_width W c) st0).
  { constructor; subst st0; cbn [cfg dataset_pointer dataset buffer next_tid tid dims rows].
    - now rewrite Hs.
    - now rewrite Hmb.
    - now rewrite Hf.
    - now rewrite Hn, Hl.
    - assumption.
    - split; [lia|]. unfold len.
      destruct (shuffled_corpus W c (ambient_seed W p)); [contradiction | simpl; lia].
    - rewrite Hb. unfold len. rewrite repeat_length. lia.
    - reflexivity.
    - lia. }
  destruct (refresh_spec W (resolved_width W c) Cworld fuel st0 R0)
    as (st & Hr & R & Hz & Hc & _ & Ho & _ & _ & _ & Hall).
  { unfold cursor_in_range. subst st0. cbn [cfg buffer_pointer]. rewrite Hb. lia. }
  { subst st0. cbn [buffer_pointer]. assumption. }
  exists st. split; [assumption|]. split; [assumption|]. split; [assumption|].
  split; [assumption|]. split; [assumption|]. split.
  - rewrite (ready_rows _ st R), Hc. subst st0. cbn [cfg]. assumption.
  - apply Hall. subst st0. cbn [buffer buffer_pointer rows].
    rewrite skipn_all2; [constructor | rewrite repeat_length; lia].
Qed.

Lemma getitem_in_range (t : tensor (act W)) (i : Z) :
  0 <= i < len (rows t) ->
  exists r, nth_error (rows t) (Z.to_nat i) = Some r /\
            getitem t i = Ok (Single (dims t) r).
Proof.
  intros Hi. unfold getitem.
  replace ((- len (rows t) <=? i) && (i <? len (rows t))) with true
    by (symmetry; apply andb_true_intro; split; [apply Z.leb_le | apply Z.ltb_lt]; lia).
  rewrite Z.mod_small by assumption.
  destruct (nth_error (rows t) (Z.to_nat i)) as [r|] eqn:E.
  - exists r. split; reflexivity.
  - apply nth_error_None in E. unfold len in Hi. lia.
Qed.

(** What a read does on a well-formed buffer: it refills first exactly
    when the low-water test holds, then reads at the cursor and moves it
    by [batch or 1]. *)
Lemma next_spec (wd : Z) (fuel : nat) st (batch : option Z) :
  well_behaved W wd -> ready wd st -> cursor_in_range st ->
  0 <= min_capacity (cfg st) -> 0 < buffer_size (cfg st) ->
  (Z.to_nat (buffer_pointer st) <= fuel)%nat ->
  exists out st1,
    next W fuel st batch = Ok (out, advance W (or_1 batch) st1) /\
    ready wd st1 /\ cfg st1 = cfg st /\
    0 <= buffer_pointer st1 /\
    ((low_water W st batch = true /\
      refresh W fuel (print W refresh_notice st) = Ok st1 /\
      buffer_pointer st1 = 0 /\
      stdout st1 = stdout st ++ [refresh_notice] /\
      tid (buffer st1) = next_tid st)
     \/ (low_water W st batch = false /\ st1 = st)) /\
    match batch with
    | None => exists r,
        nth_error (rows (buffer st1)) (Z.to_nat (buffer_pointer st1)) = Some r /\
        out = Single (dims (buffer st1)) r
    | Some b =>
        out = getslice (buffer st1) (buffer_pointer st1) (buffer_pointer st1 + b)
    end.
Proof.
  intros HW R Hin Hmin Hsize Hfuel.
  assert (Hread : forall st1, ready wd st1 -> cfg st1 = cfg st ->
            (batch = None -> 0 <= buffer_pointer st1 < buffer_size (cfg st)) ->
            exists out,
              (out' <- match batch with
                       | None => getitem (buffer st1) (buffer_pointer st1)
                       | Some b => Ok (getslice (buffer st1) (buffer_pointer st1)
                                                (buffer_pointer st1 + b))
                       end ;;
               Ok (out', advance W (or_1 batch) st1))
              = Ok (out, advance W (or_1 batch) st1) /\
              match batch with
              | None => exists r,
                  nth_error (rows (buffer st1)) (Z.to_nat (buffer_pointer st1)) = Some r /\
                  out = Single (dims (buffer st1)) r
              | Some b =>
                  out = getslice (buffer st1) (buffer_pointer st1) (buffer_pointer st1 + b)
              end).
  { intros st1 R1 Hc Hb. destruct batch as [b|].
    - eexists. split; reflexivity.
    - destruct (getitem_in_range (buffer st1) (buffer_pointer st1)) as (r & Hr & Hg).
      { rewrite (ready_rows wd st1 R1), Hc. now apply Hb. }
      exists (Single (dims (buffer st1)) r). rewrite Hg. split; [reflexivity|].
      exists r. split; [assumption | reflexivity]. }
  unfold next. destruct (low_water W st batch) eqn:Elow.
  - destruct (refresh_spec W wd HW fuel (print W refresh_notice st))
      as (st1 & Hr & R1 & Hz & Hc & _ & Ho & _ & Ht & _).
    { now apply ready_print. }
    { exact Hin. }
    { exact Hfuel. }
    cbn [print cfg stdout next_tid] in Hc, Ho, Ht.
    rewrite Hr. cbn [bind].
    destruct (Hread st1 R1 Hc) as (out & Hout & Hshape); [intros _; lia|].
    exists out, st1. split; [assumption|]. split; [assumption|]. split; [assumption|].
    split; [lia|]. split; [|assumption].
    left. repeat split; assumption.
  - cbn [bind].
    destruct (Hread st R eq_refl) as (out & Hout & Hshape).
    { intros ->. unfold low_water in Elow. apply Z.ltb_ge in Elow. simpl in Elow.
      destruct Hin. lia. }
    exists out, st. split; [assumption|]. split; [assumption|]. split; [reflexivity|].
    split; [apply Hin|]. split; [|assumption].
    right. split; reflexivity.
Qed.

End Methods.

(** ** The toy world is well behaved *)

Lemma toy_well_behaved : well_behaved Toy.world 8.
Proof.
  constructor.
  - intros g n. cbn. unfold Toy.rotl.
    rewrite length_app, length_skipn, length_firstn, length_seq. lia.
  - intros seqs stop names _. cbn. lia.
  - reflexivity.
Qed.

Lemma toy_buffer4 : Toy.buffer4 = Ok Toy.state4.
Proof. vm_compute. reflexivity. Qed.

Lemma toy_ready4 : ready 8 Toy.state4.
Proof. constructor; cbn; (reflexivity || lia). Qed.

Lemma toy_ready4_at_mark : ready 8 Toy.state4_at_mark.
Proof. apply ready_advance, toy_ready4. Qed.

Lemma toy_constructible4 : constructible Toy.world (Toy.proc 0) Toy.resolved4.
Proof.
  constructor; cbn; try (reflexivity || lia).
  - discriminate.
  - exact toy_well_behaved.
Qed.

(** ** Counting refills *)



Lemma low_water_spec {W : World} (st : ActivationsBuffer W) (batch : option Z) :
  low_water W st batch = true <->
  buffer_size (cfg st) - (buffer_pointer st + or_1 batch) < min_capacity (cfg st).
Proof. unfold low_water. apply Z.ltb_lt. Qed.


(** ** C1: when a read refills *)




(** ** C2: a refill returns with a full store *)

Lemma sampled_not_zero {A : Type} (l : list (slot A)) :
  Forall is_sampled l -> ~ In Zero l.
Proof.
  intros H Hin. rewrite Forall_forall in H. exact (H Zero Hin).
Qed.

Section RefillRows.

Variable W : World.
Variable wd : Z.
Hypothesis HW : well_behaved W wd.

Implicit Types st : ActivationsBuffer W.

(** The loop leaves the rows below the write position, followed by the
    activations of its rounds: the slice assignments neither overlap nor
    leave a gap. *)
Lemma refresh_loop_rows (fuel : nat) : forall st stop,
  ready wd st -> cursor_in_range st ->
  succ (final_layer (cfg st)) = Ok stop ->
  (Z.to_nat (buffer_pointer st) <= fuel)%nat ->
  exists st',
    refresh_loop W fuel st = Ok st' /\
    rows (buffer st') =
      firstn (Z.to_nat (buffer_size (cfg st) - buffer_pointer st)) (rows (buffer st))
      ++ map Sampled (refilled W fuel (cfg st) stop (dataset st) (dataset_pointer st)
                        (rng st) (buffer_pointer st)) /\
    len (refilled W fuel (cfg st) stop (dataset st) (dataset_pointer st)
           (rng st) (buffer_pointer st)) = buffer_pointer st.
Proof.
  assert (Hdone : forall f st stop, ready wd st -> buffer_pointer st = 0 ->
    exists st',
      refresh_loop W f st = Ok st' /\
      rows (buffer st') =
        firstn (Z.to_nat (buffer_size (cfg st) - buffer_pointer st)) (rows (buffer st))
        ++ map Sampled (refilled W f (cfg st) stop (dataset st) (dataset_pointer st)
                          (rng st) (buffer_pointer st)) /\
      len (refilled W f (cfg st) stop (dataset st) (dataset_pointer st)
             (rng st) (buffer_pointer st)) = buffer_pointer st).
  { intros f st stop R E. exists st. rewrite E.
    assert (Hno : refilled W f (cfg st) stop (dataset st) (dataset_pointer st) (rng st) 0
                  = []) by (destruct f; reflexivity).
    rewrite Hno. split; [destruct f; cbn [refresh_loop]; rewrite E; reflexivity|].
    split; [|reflexivity].
    rewrite Z.sub_0_r, <- (ready_rows wd st R). unfold len.
    rewrite Nat2Z.id, firstn_all. cbn [map]. now rewrite app_nil_r. }
  induction fuel as [|fuel IH]; intros st stop R [Hlo Hhi] Hstop Hfuel.
  - apply Hdone; [assumption | lia].
  - destruct (0 <? buffer_pointer st) eqn:E.
    + apply Z.ltb_lt in E.
      destruct (refresh_round_step W wd HW st R (conj E Hhi))
        as (st1 & Hr & R1 & F1 & Hbp1 & _ & _).
      destruct (refresh_round_spec W wd HW st R (conj E Hhi))
        as (q & stop' & Hq & Hstop' & H).
      cbv zeta in H. destruct H as (Hbs & Hnew & Hr').
      assert (stop' = stop) by congruence. subst stop'.
      unfold ceil_div in Hq.
      destruct (samples_per_seq (cfg st) =? 0); [discriminate|].
      injection Hq as <-.
      rewrite Hr in Hr'. injection Hr' as ->.
      match type of R1 with ready _ ?s => set (s1 := s) in * end.
      destruct (IH s1 stop R1) as (st' & Hl & Hrows & Hlen).
      { unfold cursor_in_range. subst s1. cbn [cfg buffer_pointer] in *. lia. }
      { subst s1. cbn [cfg final_layer]. exact Hstop. }
      { subst s1. cbn [buffer_pointer] in *. lia. }
      exists st'. split.
      { cbn [refresh_loop].
        replace (0 <? buffer_pointer st) with true by (symmetry; now apply Z.ltb_lt).
        rewrite Hr. cbn [bind]. exact Hl. }
      cbn [refilled].
      replace (0 <? buffer_pointer st) with true by (symmetry; now apply Z.ltb_lt).
      cbv zeta.
      subst s1. cbn [cfg dataset dataset_pointer rng buffer_pointer buffer rows] in *.
      unfold round_acts, round_seqs in *. cbv zeta in *.
      set (bs := Z.min (- (- buffer_pointer st / samples_per_seq (cfg st)))
                       (model_batch_size (cfg st))) in *.
      set (seqs := slice (dataset st) (dataset_pointer st) (dataset_pointer st + bs)) in *.
      set (cached := run_with_cache W seqs stop (act_names (cfg st))) in *.
      set (acts := flat_map _ (seq 0 (List.length seqs))) in *.
      set (new := Z.min (len acts) (buffer_pointer st)) in *.
      set (rest := refilled W fuel (cfg st) stop (dataset st)
                     ((dataset_pointer st + bs) mod len (dataset st))
                     (snd (randperm W (rng st) (pos cached)))
                     (buffer_pointer st - new)) in *.
      pose proof (ready_rows wd st R) as Hsize.
      set (wp := buffer_size (cfg st) - buffer_pointer st) in *.
      assert (Hwpl : List.length (firstn (Z.to_nat wp) (rows (buffer st))) = Z.to_nat wp).
      { rewrite length_firstn. unfold len in Hsize. subst wp. lia. }
      assert (Hnl : List.length (firstn (Z.to_nat new) acts) = Z.to_nat new).
      { rewrite length_firstn. unfold len in new. subst new. lia. }
      rewrite (slice_prefix acts new) by lia.
      split.
      * rewrite Hrows.
        replace (Z.to_nat (buffer_size (cfg st) - (buffer_pointer st - new)))
          with (List.length (firstn (Z.to_nat wp) (rows (buffer st))) + Z.to_nat new)%nat
          by (rewrite Hwpl; subst wp; lia).
        rewrite firstn_app_2, firstn_app, length_map, Hnl, Nat.sub_diag.
        rewrite (@firstn_all2 _ (Z.to_nat new) (map _ _)) by (rewrite length_map; lia).
        cbn [firstn]. rewrite app_nil_r, map_app, <- app_assoc. reflexivity.
      * unfold len in *. rewrite length_app, Hnl. lia.
    + apply Z.ltb_ge in E.
      apply Hdone; [assumption | lia].
Qed.

(** [refresh] returns the rows that were unread followed by the
    activations of its rounds. *)
Lemma refresh_rows (fuel : nat) st :
  ready wd st -> cursor_in_range st ->
  (Z.to_nat (buffer_pointer st) <= fuel)%nat ->
  exists st' stop,
    refresh W fuel st = Ok st' /\
    succ (final_layer (cfg st)) = Ok stop /\
    rows (buffer st') =
      skipn (Z.to_nat (buffer_pointer st)) (rows (buffer st))
      ++ map Sampled (refilled W fuel (cfg st) stop (dataset st) (dataset_pointer st)
                        (rng st) (buffer_pointer st)) /\
    len (refilled W fuel (cfg st) stop (dataset st) (dataset_pointer st)
           (rng st) (buffer_pointer st)) = buffer_pointer st.
Proof.
  intros R Hin Hfuel.
  destruct (succ_int _ (ready_final wd st R)) as (stop & Hstop).
  destruct (refresh_spec W wd HW fuel st R Hin Hfuel) as (st' & Hr & _).
  pose proof (ready_rebind_rolled W wd st R) as R1.
  destruct (refresh_loop_rows fuel (rebind_rolled W st) stop R1 Hin Hstop Hfuel)
    as (st1 & Hl & Hrows & Hlen).
  cbn [rebind_rolled cfg dataset dataset_pointer rng buffer buffer_pointer] in Hrows, Hlen.
  exists st', stop. split; [exact Hr|]. split; [exact Hstop|].
  unfold refresh in Hr. rewrite Hl in Hr. cbn [bind] in Hr.
  destruct (buffer_pointer st1 =? 0); [|discriminate]. injection Hr as <-.
  split; [|exact Hlen].
  rewrite Hrows. f_equal.
  rewrite <- (ready_rows wd st R). apply roll_unread_first.
  rewrite (ready_rows wd st R). exact Hin.
Qed.

End RefillRows.

Section ConstructionRows.

Variable W : World.

(** What [__init__] has set up when it calls [refresh]. *)
Lemma allocate_spec (p : process W) (c : ActivationsBufferConfig) :
  constructible W p c ->
  exists st0,
    allocate W p c = Ok st0 /\ ready (resolved_width W c) st0 /\
    cfg st0 = resolve_act_size W c /\
    dataset st0 = shuffled_corpus W c (ambient_seed W p) /\
    dataset_pointer st0 = 0 /\
    rng st0 = seed_torch W c (ambient_rng W p) /\
    buffer_pointer st0 = buffer_size c /\
    rows (buffer st0) = repeat Zero (Z.to_nat (buffer_size c)).
Proof.
  intros C.
  destruct C as [Csize Cwidth Csamples Cbatch Cfinal Cnames Ccorpus Cworld].
  destruct (resolve_act_size_fields W c)
    as (Hl & Hn & Hb & Hm & Hmb & Hs & Hf & Hsd & Ha).
  unfold allocate, zeros.
  rewrite Hb.
  destruct ((buffer_size c <? 0) || (len (layers (resolve_act_size W c)) <? 0)
            || (resolved_width W c <? 0)) eqn:E.
  { apply orb_prop in E as [E | E]; [apply orb_prop in E as [E | E]|];
      apply Z.ltb_lt in E; unfold len in *; lia. }
  cbn [bind]. eexists. split; [reflexivity|].
  cbn [cfg dataset_pointer dataset buffer buffer_pointer rng next_tid tid dims rows].
  split; [|repeat split].
  constructor; cbn [cfg dataset_pointer dataset buffer next_tid tid dims rows].
  - now rewrite Hs.
  - now rewrite Hmb.
  - now rewrite Hf.
  - now rewrite Hn, Hl.
  - assumption.
  - split; [lia|]. unfold len.
    destruct (shuffled_corpus W c (ambient_seed W p)); [contradiction | cbn; lia].
  - rewrite Hb. unfold len. rewrite repeat_length. lia.
  - reflexivity.
  - lia.
Qed.

(** The store construction returns holds the activations of the rounds
    of its refill and nothing else. *)
Lemma init_rows (fuel : nat) (p : process W) (c : ActivationsBufferConfig) :
  constructible W p c ->
  (Z.to_nat (buffer_size c) <= fuel)%nat ->
  exists st stop,
    Buffer__init__ W fuel p c = Ok st /\
    succ (final_layer c) = Ok stop /\
    rows (buffer st) =
      map Sampled (refilled W fuel (resolve_act_size W c) stop
                     (shuffled_corpus W c (ambient_seed W p)) 0
                     (seed_torch W c (ambient_rng W p)) (buffer_size c)).
Proof.
  intros C Hfuel.
  destruct (allocate_spec p c C) as (st0 & Ha & R0 & Hc & Hd & Hdp & Hg & Hbp & Hrows).
  pose proof (cons_size W p c C) as Hsize.
  destruct (resolve_act_size_fields W c) as (_ & _ & Hb & _ & _ & _ & Hf & _).
  destruct (refresh_rows W (resolved_width W c) (cons_world W p c C) fuel st0 R0)
    as (st & stop & Hr & Hstop & Hst & _).
  { unfold cursor_in_range. rewrite Hbp, Hc, Hb. lia. }
  { now rewrite Hbp. }
  exists st, stop. unfold Buffer__init__. rewrite Ha. cbn [bind].
  split; [exact Hr|]. split; [now rewrite Hc, Hf in Hstop|].
  rewrite Hst, Hc, Hd, Hdp, Hg, Hbp, Hrows.
  rewrite skipn_all2 by (rewrite repeat_length; lia). reflexivity.
Qed.

End ConstructionRows.

(** C2, a refill that does not return: the toy buffer, whose config
    satisfies the invariant of the specification, is read with a count of
    -1, which leaves the cursor at -1; [refresh] then skips its loop and
    raises on its final assertion, whatever the fuel. *)
Lemma refresh_raises_below_zero :
  exists out st,
    Toy.buffer4 = Ok Toy.state4 /\
    config_invariant (cfg Toy.state4) /\
    next Toy.world 8 Toy.state4 (Some (-1)) = Ok (out, st) /\
    buffer_pointer st = -1 /\
    forall fuel, refresh Toy.world fuel st = Raise (AssertionError assert_pointer_msg).
Proof.
  do 2 eexists.
  split; [exact toy_buffer4|].
  split; [cbn; repeat split; (discriminate || lia)|].
  split; [vm_compute; reflexivity|].
  split; [reflexivity|].
  intros [|fuel]; reflexivity.
Qed.

(** C2 (amended): on a well-formed buffer whose cursor is in range,
    [refresh] returns once it has fuel for the deficit, with the cursor
    at 0 and a store of [buffer_size] rows: the rows that were unread,
    moved to the front, then as many activations as the deficit, which
    are the ones its rounds sampled from the model run on the corpus, in
    order.  Every row is sampled if the unread ones were.  Construction
    returns a buffer with the cursor at 0 whose [buffer_size] rows are
    the activations of the rounds of its refill: none is the zero fill. *)
Theorem refresh_returns_full_store
    (W : World) (wd : Z) (fuel : nat) (st : ActivationsBuffer W)
    (p : process W) (c : ActivationsBufferConfig) (fuel0 : nat) :
  well_behaved W wd -> ready wd st -> cursor_in_range st ->
  (Z.to_nat (buffer_pointer st) <= fuel)%nat ->
  constructible W p c -> (Z.to_nat (buffer_size c) <= fuel0)%nat ->
  (exists st' stop,
     refresh W fuel st = Ok st' /\ buffer_pointer st' = 0 /\
     len (rows (buffer st')) = buffer_size (cfg st') /\
     succ (final_layer (cfg st)) = Ok stop /\
     let fresh := refilled W fuel (cfg st) stop (dataset st) (dataset_pointer st)
                    (rng st) (buffer_pointer st) in
     len fresh = buffer_pointer st /\
     rows (buffer st') =
       skipn (Z.to_nat (buffer_pointer st)) (rows (buffer st)) ++ map Sampled fresh /\
     (Forall is_sampled (skipn (Z.to_nat (buffer_pointer st)) (rows (buffer st))) ->
      Forall is_sampled (rows (buffer st')))) /\
  (exists st0 stop,
     Buffer__init__ W fuel0 p c = Ok st0 /\ buffer_pointer st0 = 0 /\
     len (rows (buffer st0)) = buffer_size c /\
     succ (final_layer c) = Ok stop /\
     rows (buffer st0) =
       map Sampled (refilled W fuel0 (resolve_act_size W c) stop
                      (shuffled_corpus W c (ambient_seed W p)) 0
                      (seed_torch W c (ambient_rng W p)) (buffer_size c)) /\
     Forall is_sampled (rows (buffer st0)) /\ ~ In Zero (rows (buffer st0))).
Proof.
  intros HW R Hin Hfuel C Hfuel0. split.
  - destruct (refresh_spec W wd HW fuel st R Hin Hfuel)
      as (st' & Hr & R' & Hz & _ & _ & _ & _ & _ & _ & Hall).
    destruct (refresh_rows W wd HW fuel st R Hin Hfuel)
      as (st2 & stop & Hr2 & Hstop & Hrows & Hlen).
    assert (st2 = st') by congruence. subst st2.
    exists st', stop. split; [assumption|]. split; [assumption|].
    split; [apply (ready_rows wd st' R')|]. split; [assumption|].
    cbv zeta. split; [assumption|]. split; assumption.
  - destruct (init_spec W fuel0 p c C Hfuel0) as (st0 & Hi & _ & Hz & _ & _ & Hl & Hall).
    destruct (init_rows W fuel0 p c C Hfuel0) as (st2 & stop & Hi2 & Hstop & Hrows).
    assert (st2 = st0) by congruence. subst st2.
    exists st0, stop. split; [assumption|]. split; [assumption|]. split; [assumption|].
    split; [assumption|]. split; [assumption|].
    split; [assumption | now apply sampled_not_zero].
Qed.

(** C2 on the toy buffer: refilling after two reads keeps the two unread
    rows and samples two more from the next sequence; building it samples
    four from the first. *)
Lemma refresh_returns_full_store_witness :
  (exists st',
     refresh Toy.world 2 Toy.state4_at_mark = Ok st' /\ buffer_pointer st' = 0 /\
     rows (buffer st') = [Sampled (2, 3); Sampled (2, 4); Sampled (3, 2); Sampled (3, 3)]%nat) /\
  (exists st0,
     Buffer__init__ Toy.world 4 (Toy.proc 0) Toy.resolved4 = Ok st0 /\
     buffer_pointer st0 = 0 /\
     rows (buffer st0) = [Sampled (2, 1); Sampled (2, 2); Sampled (2, 3); Sampled (2, 4)]%nat).
Proof.
  destruct (refresh_returns_full_store Toy.world 8 2 Toy.state4_at_mark
              (Toy.proc 0) Toy.resolved4 4 toy_well_behaved toy_ready4_at_mark)
    as [(st' & stop & Hr & Hz & _ & Hstop & H) (st0 & stop0 & Hi & Hz0 & _ & Hstop0 & Hrows0 & _)].
  - unfold cursor_in_range. cbn. lia.
  - cbn. lia.
  - exact toy_constructible4.
  - cbn. lia.
  - cbv zeta in H. destruct H as (_ & Hrows & _).
    injection Hstop as <-. injection Hstop0 as <-.
    split.
    + exists st'. split; [exact Hr|]. split; [exact Hz|].
      rewrite Hrows. vm_compute. reflexivity.
    + exists st0. split; [exact Hi|]. split; [exact Hz0|].
      rewrite Hrows0. vm_compute. reflexivity.
Defined.

(** ** C3: what a read returns *)

Lemma firstn_1_skipn {A : Type} (l : list A) (n : nat) (r : A) :
  nth_error l n = Some r -> firstn 1 (skipn n l) = [r].
Proof.
  revert l. induction n as [|n IH]; intros [|x l] H; try discriminate.
  - now injection H as ->.
  - now apply IH.
Qed.

(** C3, a read of more than the store holds: [next(5)] on a store of four
    rows returns four vectors and moves the cursor by five. *)
Lemma next_oversize_returns_fewer :
  exists out st',
    next Toy.world 8 Toy.state4 (Some 5) = Ok (out, st') /\
    shape out = [4; 2; 8] /\
    buffer_pointer st' = 5.
Proof.
  do 2 eexists. split; [vm_compute; reflexivity|]. split; reflexivity.
Qed.

(** C3 (amended): on a well-formed buffer, a read of [b] vectors with
    [1 <= b <= buffer_size], or the default read, returns the
    [batch or 1] rows of the store that start at the cursor (the cursor
    the refill left, when the read refilled first), in shape
    [(b, layers, act_size)], or [(layers, act_size)] for the default
    read, and moves the cursor by that count. *)
Theorem next_returns_count_vectors
    (W : World) (wd : Z) (fuel : nat) (st : ActivationsBuffer W) (batch : option Z) :
  well_behaved W wd -> ready wd st -> cursor_in_range st ->
  0 <= min_capacity (cfg st) -> 0 < buffer_size (cfg st) ->
  (Z.to_nat (buffer_size (cfg st)) <= fuel)%nat ->
  (forall b, batch = Some b -> 1 <= b <= buffer_size (cfg st)) ->
  exists out st1,
    next W fuel st batch = Ok (out, advance W (or_1 batch) st1) /\
    (st1 = st \/ refresh W fuel (print W refresh_notice st) = Ok st1) /\
    vectors out = firstn (Z.to_nat (or_1 batch))
                    (skipn (Z.to_nat (buffer_pointer st1)) (rows (buffer st1))) /\
    len (vectors out) = or_1 batch /\
    shape out = match batch with
                | None => [len (layers (cfg st)); wd]
                | Some b => [b; len (layers (cfg st)); wd]
                end /\
    act_size (cfg st) = Some wd /\
    buffer_pointer (advance W (or_1 batch) st1) = buffer_pointer st1 + or_1 batch.
Proof.
  intros HW R Hin Hmin Hsize Hfuel Hb.
  destruct (next_spec W wd fuel st batch HW R Hin Hmin Hsize)
    as (out & st1 & Hn & R1 & Hc & Hp0 & Hcase & Hout).
  { destruct Hin. lia. }
  exists out, st1. split; [assumption|].
  split; [destruct Hcase as [(_ & Hr & _) | (_ & ->)]; [now right | now left]|].
  pose proof (ready_rows wd st1 R1) as Hrows.
  pose proof (ready_dims wd st1 R1) as Hdims.
  rewrite Hc in Hrows, Hdims.
  assert (Hfit : buffer_pointer st1 + or_1 batch <= buffer_size (cfg st)).
  { destruct Hcase as [(_ & _ & Hz & _) | (Hlow & ->)].
    - rewrite Hz. destruct batch as [b|]; cbn.
      + specialize (Hb b eq_refl). destruct (b =? 0); lia.
      + lia.
    - apply not_true_iff_false in Hlow. rewrite low_water_spec in Hlow. lia. }
  destruct batch as [b|].
  - specialize (Hb b eq_refl).
    assert (Hor : or_1 (Some b) = b).
    { cbn. destruct (b =? 0) eqn:E; [apply Z.eqb_eq in E; lia | reflexivity]. }
    rewrite Hor in *. subst out. unfold getslice. cbn [vectors shape].
    rewrite Hdims. cbn [fst snd].
    split; [rewrite slice_forward by lia; f_equal; f_equal; lia|].
    split; [rewrite len_slice_forward by lia; lia|].
    split; [f_equal; rewrite len_slice_forward by lia; lia|].
    split; [apply (ready_width wd st R) | reflexivity].
  - destruct Hout as (r & Hr & ->). cbn [vectors shape or_1].
    rewrite Hdims. cbn [fst snd].
    split; [symmetry; now apply firstn_1_skipn|].
    split; [reflexivity|]. split; [reflexivity|].
    split; [apply (ready_width wd st R) | reflexivity].
Qed.

(** C3 on the toy buffer: a read of two vectors. *)
Lemma next_returns_count_vectors_witness :
  exists out st',
    next Toy.world 8 Toy.state4 (Some 2) = Ok (out, st') /\
    len (vectors out) = 2 /\ shape out = [2; 2; 8].
Proof.
  destruct (next_returns_count_vectors Toy.world 8 8 Toy.state4 (Some 2)
              toy_well_behaved toy_ready4)
    as (out & st1 & Hn & _ & _ & Hl & Hs & _).
  - unfold cursor_in_range. cbn. lia.
  - cbn. lia.
  - cbn. lia.
  - cbn. lia.
  - intros b Hb. injection Hb as <-. cbn. lia.
  - exists out, (advance Toy.world (or_1 (Some 2)) st1).
    split; [exact Hn|]. split; [exact Hl | exact Hs].
Defined.

(** ** C4: what a round writes *)

(** C4: a round of a well-formed buffer with a deficit returns.  With
    [acts] the activations it sampled, it writes
    [min (len acts) buffer_pointer] of them from
    [buffer_size - buffer_pointer] on and leaves every other row as it
    was; the write ends within the store, whose length stays
    [buffer_size]; the deficit goes down by the number written; the
    state the next round starts from holds none of the activations past
    that number. *)
Theorem refresh_round_writes_at_deficit
    (W : World) (wd : Z) (st : ActivationsBuffer W) :
  well_behaved W wd -> ready wd st ->
  0 < buffer_pointer st <= buffer_size (cfg st) ->
  exists q stop st',
    ceil_div (buffer_pointer st) (samples_per_seq (cfg st)) = Ok q /\
    succ (final_layer (cfg st)) = Ok stop /\
    refresh_round W st = Ok st' /\
    let seqs := round_seqs W st (Z.min q (model_batch_size (cfg st))) in
    let acts := round_acts W st seqs stop in
    let write_start := buffer_size (cfg st) - buffer_pointer st in
    let written := Z.min (len acts) (buffer_pointer st) in
    rows (buffer st') =
      firstn (Z.to_nat write_start) (rows (buffer st))
      ++ map Sampled (firstn (Z.to_nat written) acts)
      ++ skipn (Z.to_nat (write_start + written)) (rows (buffer st)) /\
    1 <= written /\
    write_start + written <= buffer_size (cfg st) /\
    len (rows (buffer st')) = buffer_size (cfg st) /\
    buffer_pointer st' = buffer_pointer st - written /\
    st' = {| cfg := cfg st;
             dataset_pointer :=
               (dataset_pointer st + Z.min q (model_batch_size (cfg st)))
               mod len (dataset st);
             dataset := dataset st;
             buffer := buffer st';
             buffer_pointer := buffer_pointer st - written;
             rng := snd (randperm W (rng st)
                           (pos (run_with_cache W seqs stop (act_names (cfg st)))));
             stdout := stdout st;
             next_tid := next_tid st |}.
Proof.
  intros HW R Hbp.
  destruct (refresh_round_spec W wd HW st R Hbp) as (q & stop & Hq & Hstop & H).
  cbv zeta in H. destruct H as (_ & Hnew & Hr).
  destruct (refresh_round_step W wd HW st R Hbp) as (st' & Hr' & R' & F & _).
  exists q, stop, st'. split; [assumption|]. split; [assumption|].
  split; [assumption|]. cbv zeta.
  rewrite Hr in Hr'. injection Hr' as <-. cbn [buffer rows buffer_pointer].
  split; [reflexivity|]. split; [assumption|]. split; [lia|].
  split; [|split; reflexivity].
  pose proof (ready_rows wd _ R') as Hl. exact Hl.
Qed.

(** C4 on the toy buffer, two reads in: the round returns and the store
    keeps its four rows. *)
Lemma refresh_round_writes_at_deficit_witness :
  exists st',
    refresh_round Toy.world Toy.state4_at_mark = Ok st' /\
    len (rows (buffer st')) = 4.
Proof.
  destruct (refresh_round_writes_at_deficit Toy.world 8 Toy.state4_at_mark
              toy_well_behaved toy_ready4_at_mark)
    as (q & stop & st' & _ & _ & Hr & H).
  - cbn. lia.
  - cbv zeta in H. destruct H as (_ & _ & _ & Hl & _).
    exists st'. split; [exact Hr | exact Hl].
Defined.

(** ** C5: the identity of the store *)

Section StoreIdentity.

Variable W : World.

Implicit Types st : ActivationsBuffer W.

(** A round writes the store it finds. *)
Lemma refresh_round_same_store st st' :
  refresh_round W st = Ok st' ->
  tid (buffer st') = tid (buffer st) /\ dims (buffer st') = dims (buffer st) /\
  len (rows (buffer st')) = len (rows (buffer st)) /\ next_tid st' = next_tid st.
Proof.
  unfold refresh_round. intros H.
  destruct (ceil_div _ _) as [q| |]; try discriminate. cbn [bind] in H.
  destruct (modulo _ _) as [dp| |]; try discriminate. cbn [bind] in H.
  destruct (succ _) as [stop| |]; try discriminate. cbn [bind] in H.
  destruct (setslice _ _ _ _ _) as [buf| |] eqn:E; try discriminate. cbn [bind] in H.
  injection H as <-. cbn [buffer next_tid].
  destruct (setslice_in_place _ _ _ _ _ _ E) as (Ht & Hd & Hl).
  repeat split; assumption.
Qed.

Lemma refresh_loop_same_store (fuel : nat) : forall st st',
  refresh_loop W fuel st = Ok st' ->
  tid (buffer st') = tid (buffer st) /\ dims (buffer st') = dims (buffer st) /\
  len (rows (buffer st')) = len (rows (buffer st)) /\ next_tid st' = next_tid st.
Proof.
  induction fuel as [|fuel IH]; intros st st' H; cbn [refresh_loop] in H.
  - destruct (0 <? buffer_pointer st); [discriminate|].
    injection H as <-. repeat split.
  - destruct (0 <? buffer_pointer st).
    + destruct (refresh_round W st) as [st1| |] eqn:E; try discriminate.
      cbn [bind] in H.
      destruct (refresh_round_same_store _ _ E) as (a1 & a2 & a3 & a4).
      destruct (IH _ _ H) as (b1 & b2 & b3 & b4).
      repeat split; congruence.
    + injection H as <-. repeat split.
Qed.

Lemma refresh_new_store (fuel : nat) st st' :
  refresh W fuel st = Ok st' ->
  tid (buffer st') = next_tid st /\ dims (buffer st') = dims (buffer st) /\
  len (rows (buffer st')) = len (rows (buffer st)) /\ next_tid st' = S (next_tid st).
Proof.
  unfold refresh. intros H.
  destruct (refresh_loop W fuel (rebind_rolled W st)) as [st1| |] eqn:E; try discriminate.
  cbn [bind] in H.
  destruct (buffer_pointer st1 =? 0); [|discriminate]. injection H as <-.
  destruct (refresh_loop_same_store _ _ _ E) as (Ht & Hd & Hl & Hn).
  cbn [rebind_rolled buffer next_tid] in Ht, Hd, Hl, Hn.
  destruct (roll_shape (next_tid st) (buffer st) (- buffer_pointer st)) as (Rt & Rd & Rl).
  repeat split; congruence.
Qed.

End StoreIdentity.

(** C5, the store after construction and after a refilling read: the
    tensor [__init__] allocates is object 0, the buffer it returns holds
    object 1, and after three reads the buffer holds object 2. *)
Lemma store_is_replaced_by_refill :
  exists st0 outs st',
    allocate Toy.world (Toy.proc 0) Toy.resolved4 = Ok st0 /\
    Buffer__init__ Toy.world 4 (Toy.proc 0) Toy.resolved4 = Ok Toy.state4 /\
    reads Toy.world 8 3 (Some 1) Toy.state4 = Ok (outs, st') /\
    tid (buffer Toy.state4) <> tid (buffer st0) /\
    tid (buffer st') <> tid (buffer Toy.state4).
Proof.
  do 3 eexists.
  split; [vm_compute; reflexivity|].
  split; [vm_compute; reflexivity|].
  split; [vm_compute; reflexivity|].
  split; cbn; discriminate.
Qed.

(** C5 (amended): the store is first allocated by [__init__], zero-filled.
    A round of the refill loop writes the store it finds, in place.  Every
    [refresh] that returns, called directly, by [__init__] or by [next],
    has rebound the store to a newly allocated object of the same shape,
    the one [roll] returned, which its rounds went on to write in place.
    A read that does not refill leaves the store the object it was, rows
    included.  Each operation leaves the store older than the next unused
    identity, so that this holds again of the operation that follows. *)
Theorem store_identity (W : World) (fuel : nat) :
  (forall (p : process W) c st0,
     allocate W p c = Ok st0 ->
     tid (buffer st0) = unused_tid W p /\
     rows (buffer st0) = repeat Zero (Z.to_nat (buffer_size c)) /\
     (tid (buffer st0) < next_tid st0)%nat) /\
  (forall st st' : ActivationsBuffer W,
     refresh_round W st = Ok st' ->
     tid (buffer st') = tid (buffer st) /\ dims (buffer st') = dims (buffer st) /\
     len (rows (buffer st')) = len (rows (buffer st)) /\ next_tid st' = next_tid st) /\
  (forall st st' : ActivationsBuffer W,
     refresh W fuel st = Ok st' ->
     (tid (buffer st) < next_tid st)%nat ->
     tid (buffer st') = next_tid st /\ tid (buffer st') <> tid (buffer st) /\
     dims (buffer st') = dims (buffer st) /\
     len (rows (buffer st')) = len (rows (buffer st)) /\
     (tid (buffer st') < next_tid st')%nat /\
     refresh_loop W fuel (rebind_rolled W st) = Ok st' /\
     buffer (rebind_rolled W st) = roll (next_tid st) (buffer st) (- buffer_pointer st) /\
     tid (buffer st') = tid (buffer (rebind_rolled W st))) /\
  (forall (p : process W) c st,
     Buffer__init__ W fuel p c = Ok st ->
     exists st0,
       allocate W p c = Ok st0 /\ refresh W fuel st0 = Ok st /\
       tid (buffer st) = next_tid st0 /\ tid (buffer st) <> tid (buffer st0) /\
       (tid (buffer st) < next_tid st)%nat) /\
  (forall st (batch : option Z) out st',
     next W fuel st batch = Ok (out, st') ->
     (tid (buffer st) < next_tid st)%nat ->
     dims (buffer st') = dims (buffer st) /\
     len (rows (buffer st')) = len (rows (buffer st)) /\
     (tid (buffer st') < next_tid st')%nat /\
     (low_water W st batch = false -> buffer st' = buffer st) /\
     (low_water W st batch = true ->
      tid (buffer st') = next_tid st /\ tid (buffer st') <> tid (buffer st) /\
      exists st1,
        refresh W fuel (print W refresh_notice st) = Ok st1 /\
        buffer st' = buffer st1)).
Proof.
  assert (Halloc : forall (p : process W) c st0,
    allocate W p c = Ok st0 ->
    tid (buffer st0) = unused_tid W p /\
    rows (buffer st0) = repeat Zero (Z.to_nat (buffer_size c)) /\
    (tid (buffer st0) < next_tid st0)%nat).
  { intros p c st0 H. unfold allocate, zeros in H.
    destruct (_ || _ || _); [discriminate|]. cbn [bind] in H. injection H as <-.
    cbn [buffer tid rows next_tid].
    destruct (resolve_act_size_fields W c) as (_ & _ & -> & _).
    repeat split. lia. }
  assert (Hrefresh : forall st st' : ActivationsBuffer W,
    refresh W fuel st = Ok st' ->
    (tid (buffer st) < next_tid st)%nat ->
    tid (buffer st') = next_tid st /\ tid (buffer st') <> tid (buffer st) /\
    dims (buffer st') = dims (buffer st) /\
    len (rows (buffer st')) = len (rows (buffer st)) /\
    (tid (buffer st') < next_tid st')%nat /\
    refresh_loop W fuel (rebind_rolled W st) = Ok st' /\
    buffer (rebind_rolled W st) = roll (next_tid st) (buffer st) (- buffer_pointer st) /\
    tid (buffer st') = tid (buffer (rebind_rolled W st))).
  { intros st st' H Hold.
    destruct (refresh_new_store W _ _ _ H) as (Ht & Hd & Hl & Hn).
    split; [assumption|]. split; [lia|]. split; [assumption|]. split; [assumption|].
    split; [lia|].
    unfold refresh in H.
    destruct (refresh_loop W fuel (rebind_rolled W st)) as [st1| |] eqn:El;
      try discriminate.
    cbn [bind] in H. destruct (buffer_pointer st1 =? 0); [|discriminate].
    injection H as <-.
    split; [reflexivity|]. split; [reflexivity|].
    apply (refresh_loop_same_store W _ _ _ El). }
  split; [exact Halloc|].
  split; [exact (refresh_round_same_store W)|].
  split; [exact Hrefresh|].
  split.
  - intros p c st H. unfold Buffer__init__ in H.
    destruct (allocate W p c) as [st0| |] eqn:Ea; try discriminate.
    cbn [bind] in H. exists st0. split; [reflexivity|]. split; [exact H|].
    destruct (Halloc p c st0 Ea) as (_ & _ & Hold).
    destruct (Hrefresh st0 st H Hold) as (Ht & Hne & _ & _ & Hnew & _).
    repeat split; assumption.
  - intros st batch out st' H Hold. unfold next in H.
    destruct (low_water W st batch) eqn:Elow.
    + destruct (refresh W fuel (print W refresh_notice st)) as [st1| |] eqn:E;
        try discriminate.
      cbn [bind] in H.
      assert (Hb : buffer st' = buffer st1 /\ next_tid st' = next_tid st1).
      { destruct batch as [b|].
        - cbn [bind] in H. injection H as _ <-. split; reflexivity.
        - destruct (getitem _ _) as [o| |]; try discriminate.
          cbn [bind] in H. injection H as _ <-. split; reflexivity. }
      destruct Hb as (Hb & Hn).
      destruct (Hrefresh _ _ E Hold) as (Ht & Hne & Hd & Hl & Hnew & _).
      cbn [print buffer next_tid] in Ht, Hne, Hd, Hl.
      rewrite Hb, Hn. split; [assumption|]. split; [assumption|].
      split; [assumption|]. split; [discriminate|]. intros _.
      split; [assumption|]. split; [assumption|].
      exists st1. split; reflexivity.
    + cbn [bind] in H.
      assert (Hb : buffer st' = buffer st /\ next_tid st' = next_tid st).
      { destruct batch as [b|].
        - cbn [bind] in H. injection H as _ <-. split; reflexivity.
        - destruct (getitem _ _) as [o| |]; try discriminate.
          cbn [bind] in H. injection H as _ <-. split; reflexivity. }
      destruct Hb as (Hb & Hn).
      rewrite Hb, Hn. split; [reflexivity|]. split; [reflexivity|].
      split; [assumption|]. split; [reflexivity | discriminate].
Qed.

(** C5 on the toy buffer: a read above the mark keeps the store, a
    refill called on the buffer as built rebinds it, and so did the
    refill that ended its construction. *)
Lemma store_identity_witness :
  (exists out st',
     next Toy.world 8 Toy.state4 (Some 1) = Ok (out, st') /\
     buffer st' = buffer Toy.state4) /\
  (exists st',
     refresh Toy.world 8 Toy.state4 = Ok st' /\
     tid (buffer st') <> tid (buffer Toy.state4)) /\
  (exists st0,
     allocate Toy.world (Toy.proc 0) Toy.resolved4 = Ok st0 /\
     tid (buffer Toy.state4) <> tid (buffer st0)).
Proof.
  destruct (store_identity Toy.world 8) as (_ & _ & Hrefresh & _ & Hnext).
  destruct (store_identity Toy.world 4) as (_ & _ & _ & Hinit & _).
  split; [|split].
  - exists (getslice (buffer Toy.state4) 0 1), (advance Toy.world 1 Toy.state4).
    assert (H : next Toy.world 8 Toy.state4 (Some 1)
                = Ok (getslice (buffer Toy.state4) 0 1, advance Toy.world 1 Toy.state4))
      by reflexivity.
    split; [exact H|].
    apply (Hnext Toy.state4 (Some 1) _ _ H); [cbn; lia | reflexivity].
  - assert (H : refresh Toy.world 8 Toy.state4 = Ok (rebind_rolled Toy.world Toy.state4))
      by reflexivity.
    exists (rebind_rolled Toy.world Toy.state4). split; [exact H|].
    apply (Hrefresh _ _ H). cbn. lia.
  - destruct (Hinit (Toy.proc 0) Toy.resolved4 Toy.state4) as (st0 & Ha & _ & _ & Hne & _).
    { vm_compute. reflexivity. }
    exists st0. split; [exact Ha | exact Hne].
Defined.

(** ** C6: what the config constructor rejects *)

(** C6, accepted constructions: a capacity, minimum capacity, batch size
    and sample count of 0 are accepted, and so is a list of strs. *)
Lemma config_accepts_unchecked_arguments :
  (exists c,
     Config__init__ "m" (PyList [PyInt 0]) "d" "mlp.hook_pre" None 0 0 0 0 None None
     = Ok c /\ ~ config_invariant c) /\
  (exists c,
     Config__init__ "m" (PyList [PyStr "a"]) "d" "mlp.hook_pre" None 256 128 8 16 None None
     = Ok c /\ list_of_ints (PyList [PyStr "a"]) = false).
Proof.
  split; eexists; (split; [reflexivity|]).
  - unfold config_invariant. cbn. lia.
  - reflexivity.
Qed.

(** C6 (amended): the constructor raises its assertion on every [layers]
    that is not a list or is the empty list, whatever the other
    arguments; and every construction it accepts has a non-empty list of
    layers and holds the capacity, minimum capacity, batch size and
    sample count it was given, unchecked. *)
Theorem config_init_checks_layers_only
    (name : string) (ls : pyobj) (corpus site : string) (split : option string)
    (size min_cap mbs sps : Z) (width sd : option Z) :
  ((is_list ls = false \/ ls = PyList []) ->
   Config__init__ name ls corpus site split size min_cap mbs sps width sd
   = Raise (AssertionError assert_layers_msg)) /\
  (forall c,
     Config__init__ name ls corpus site split size min_cap mbs sps width sd = Ok c ->
     ls = PyList (layers c) /\ layers c <> [] /\
     len (act_names c) = len (layers c) /\
     buffer_size c = size /\ min_capacity c = min_cap /\
     model_batch_size c = mbs /\ samples_per_seq c = sps /\
     act_size c = width /\ seed c = sd).
Proof.
  split.
  - intros [H | ->]; [|reflexivity].
    destruct ls as [a | l]; [reflexivity | discriminate].
  - intros c H. destruct ls as [a | [|l0 l]]; try discriminate.
    cbn in H. destruct (max_from l0 l) as [fl| |]; try discriminate.
    cbn in H. injection H as <-. cbn.
    repeat split; try discriminate.
    unfold len. cbn. now rewrite length_map.
Qed.

(** C6 on two constructions: an empty list is rejected, and the accepted
    toy config holds the sizes it was given. *)
Lemma config_init_checks_layers_only_witness :
  Toy.config (PyList []) 4 2 2 4 None = Raise (AssertionError assert_layers_msg) /\
  (forall c, Toy.cfg4 = Ok c -> buffer_size c = 4 /\ min_capacity c = 2).
Proof.
  split.
  - apply (config_init_checks_layers_only "toy" (PyList []) "corpus" "mlp.hook_pre"
             None 4 2 2 4 None None).
    right. reflexivity.
  - intros c H.
    destruct (proj2 (config_init_checks_layers_only "toy" Toy.two_layers "corpus"
                       "mlp.hook_pre" None 4 2 2 4 None (Some 7)) c H)
      as (_ & _ & _ & Hs & Hm & _).
    split; [exact Hs | exact Hm].
Defined.

(** ** C7: the corpus slice at the end of the corpus *)

(** C7, evaluated where the corpus cursor is one short of the end: with
    the cursor at 4 of 5 sequences and a deficit of 12, the round asks
    for 2 sequences and the slice holds 1; the cursor then wraps to 1, so
    the sequence at index 0 is passed over, and the round writes 4
    activations where two sequences would have given 8. *)
Theorem corpus_slice_is_cut_at_the_end :
  exists st st',
    Toy.state16_end_of_corpus = Ok st /\
    dataset_pointer st = 4 /\ len (dataset st) = 5 /\ buffer_pointer st = 12 /\
    ceil_div (buffer_pointer st) (samples_per_seq (cfg st)) = Ok 3 /\
    Z.min 3 (model_batch_size (cfg st)) = 2 /\
    round_seqs Toy.world st 2 = [1%nat] /\
    refresh_round Toy.world st = Ok st' /\
    dataset_pointer st' = 1 /\ buffer_pointer st' = 8.
Proof.
  do 2 eexists.
  split; [vm_compute; reflexivity|].
  split; [vm_compute; reflexivity|].
  split; [vm_compute; reflexivity|].
  split; [vm_compute; reflexivity|].
  split; [vm_compute; reflexivity|].
  split; [vm_compute; reflexivity|].
  split; [vm_compute; reflexivity|].
  split; [vm_compute; reflexivity|].
  split; vm_compute; reflexivity.
Qed.

(** ** C8: the range of the read cursor *)

(** C8, a read of more than the store holds: [next(5)] on a store of four
    rows leaves the cursor at 5. *)
Lemma next_oversize_leaves_range :
  exists out st',
    next Toy.world 8 Toy.state4 (Some 5) = Ok (out, st') /\
    cursor_in_range Toy.state4 /\ ~ cursor_in_range st'.
Proof.
  do 2 eexists. split; [vm_compute; reflexivity|].
  unfold cursor_in_range. cbn. split; lia.
Qed.

(** C8 (amended): construction returns a buffer whose cursor is in
    range; on a well-formed buffer whose cursor is in range, [refresh]
    returns with the cursor in range, and so does every read of [b]
    vectors with [0 <= b <= buffer_size] and the default read. *)
Theorem cursor_in_range_preserved
    (W : World) (wd : Z) (fuel : nat) (st : ActivationsBuffer W) (batch : option Z)
    (p : process W) (c : ActivationsBufferConfig) (fuel0 : nat) :
  well_behaved W wd -> ready wd st -> cursor_in_range st ->
  0 <= min_capacity (cfg st) -> 0 < buffer_size (cfg st) ->
  (Z.to_nat (buffer_size (cfg st)) <= fuel)%nat ->
  (forall b, batch = Some b -> 0 <= b <= buffer_size (cfg st)) ->
  constructible W p c -> (Z.to_nat (buffer_size c) <= fuel0)%nat ->
  (exists st0, Buffer__init__ W fuel0 p c = Ok st0 /\ cursor_in_range st0) /\
  (exists st', refresh W fuel st = Ok st' /\ cursor_in_range st') /\
  (exists out st',
     next W fuel st batch = Ok (out, st') /\ cursor_in_range st' /\ ready wd st').
Proof.
  intros HW R Hin Hmin Hsize Hfuel Hb C Hfuel0.
  assert (Hfuel' : (Z.to_nat (buffer_pointer st) <= fuel)%nat) by (destruct Hin; lia).
  split; [|split].
  - destruct (init_spec W fuel0 p c C Hfuel0) as (st0 & Hi & _ & Hz & Hc & _).
    exists st0. split; [assumption|]. unfold cursor_in_range. rewrite Hz, Hc.
    destruct (resolve_act_size_fields W c) as (_ & _ & -> & _).
    pose proof (cons_size W p c C). lia.
  - destruct (refresh_spec W wd HW fuel st R Hin Hfuel')
      as (st' & Hr & _ & Hz & Hc & _).
    exists st'. split; [assumption|]. unfold cursor_in_range. rewrite Hz, Hc. lia.
  - destruct (next_spec W wd fuel st batch HW R Hin Hmin Hsize Hfuel')
      as (out & st1 & Hn & R1 & Hc & Hp0 & Hcase & _).
    exists out, (advance W (or_1 batch) st1). split; [assumption|].
    split; [|now apply ready_advance].
    unfold cursor_in_range. cbn [advance cfg buffer_pointer]. rewrite Hc.
    assert (Hor : 1 <= or_1 batch).
    { destruct batch as [b|]; cbn; [|lia].
      specialize (Hb b eq_refl). destruct (b =? 0) eqn:E; [lia|].
      apply Z.eqb_neq in E. lia. }
    destruct Hcase as [(_ & _ & Hz & _) | (Hlow & ->)].
    + rewrite Hz. destruct batch as [b|]; cbn in *.
      * specialize (Hb b eq_refl). destruct (b =? 0); lia.
      * lia.
    + apply not_true_iff_false in Hlow. rewrite low_water_spec in Hlow. lia.
Qed.

(** C8 on the toy buffer: a read of the whole store. *)
Lemma cursor_in_range_preserved_witness :
  exists out st',
    next Toy.world 8 Toy.state4 (Some 4) = Ok (out, st') /\ cursor_in_range st'.
Proof.
  destruct (cursor_in_range_preserved Toy.world 8 8 Toy.state4 (Some 4)
              (Toy.proc 0) Toy.resolved4 4 toy_well_behaved toy_ready4)
    as (_ & _ & out & st' & Hn & Hc & _).
  - unfold cursor_in_range. cbn. lia.
  - cbn. lia.
  - cbn. lia.
  - cbn. lia.
  - intros b Hb. injection Hb as <-. cbn. lia.
  - exact toy_constructible4.
  - cbn. lia.
  - exists out, st'. split; [exact Hn | exact Hc].
Defined.

(** ** C9: seeding *)

(** A seed other than 0 seeds the generator, whatever state it was in. *)
Lemma seed_torch_nonzero (W : World) (c : ActivationsBufferConfig) (s : Z) (g : gen W) :
  seed c = Some s -> s <> 0 -> seed_torch W c g = manual_seed W s.
Proof.
  intros H Hs. unfold seed_torch. rewrite H. cbn.
  destruct (s =? 0) eqn:E; [apply Z.eqb_eq in E; contradiction | reflexivity].
Qed.

(** C9, evaluated at seed 0: [if cfg.seed:] does not hold, the generator
    is left as the process has it, and two buffers built from the same
    config in processes whose generators differ sample different
    positions. *)
Theorem seed_zero_is_not_seeded :
  exists c st1 st2,
    Toy.cfg4_seed0 = Ok c /\ seed c = Some 0 /\
    (forall g, seed_torch Toy.world c g = g) /\
    Buffer__init__ Toy.world 4 (Toy.proc 1) c = Ok st1 /\
    Buffer__init__ Toy.world 4 (Toy.proc 2) c = Ok st2 /\
    dataset st1 = dataset st2 /\
    rows (buffer st1) <> rows (buffer st2).
Proof.
  do 3 eexists.
  split; [vm_compute; reflexivity|].
  split; [reflexivity|].
  split; [intros g; reflexivity|].
  split; [vm_compute; reflexivity|].
  split; [vm_compute; reflexivity|].
  split; [reflexivity | cbn; discriminate].
Qed.

(** ** C10: a read of no vector *)

(** C10: on a well-formed buffer [next(0)] returns what holds no vector,
    in shape [(0, layers, act_size)].  Its test for a refill is the one
    of a count of 1: when [buffer_size - (buffer_pointer + 1)
    < min_capacity] it announces and runs a refill and leaves the cursor
    at 1; otherwise it leaves the store alone and the cursor one higher.
    Either way the buffer is left as the default read and a read of one
    vector leave it. *)
Theorem next_zero_reads_nothing_and_advances
    (W : World) (wd : Z) (fuel : nat) (st : ActivationsBuffer W) :
  well_behaved W wd -> ready wd st -> cursor_in_range st ->
  0 <= min_capacity (cfg st) -> 0 < buffer_size (cfg st) ->
  (Z.to_nat (buffer_size (cfg st)) <= fuel)%nat ->
  exists out st',
    next W fuel st (Some 0) = Ok (out, st') /\
    vectors out = [] /\
    shape out = [0; len (layers (cfg st)); wd] /\
    (buffer_size (cfg st) - (buffer_pointer st + 1) < min_capacity (cfg st) ->
     exists st1,
       refresh W fuel (print W refresh_notice st) = Ok st1 /\
       st' = advance W 1 st1 /\
       stdout st' = stdout st ++ [refresh_notice] /\
       tid (buffer st') = next_tid st /\
       buffer_pointer st' = 1) /\
    (~ buffer_size (cfg st) - (buffer_pointer st + 1) < min_capacity (cfg st) ->
     st' = advance W 1 st /\
     stdout st' = stdout st /\ buffer st' = buffer st /\
     buffer_pointer st' = buffer_pointer st + 1) /\
    (exists out1, next W fuel st None = Ok (out1, st')) /\
    (exists out1, next W fuel st (Some 1) = Ok (out1, st')).
Proof.
  intros HW R Hin Hmin Hsize Hfuel.
  assert (Hf : (Z.to_nat (buffer_pointer st) <= fuel)%nat) by (destruct Hin; lia).
  destruct (next_spec W wd fuel st (Some 0) HW R Hin Hmin Hsize Hf)
    as (out & st1 & Hn & R1 & Hc & _ & Hcase & Hout).
  destruct (next_spec W wd fuel st None HW R Hin Hmin Hsize Hf)
    as (outn & stn & Hnn & _ & _ & _ & Hcasen & _).
  destruct (next_spec W wd fuel st (Some 1) HW R Hin Hmin Hsize Hf)
    as (out1 & sto & Hn1 & _ & _ & _ & Hcase1 & _).
  change (or_1 (Some 0)) with 1 in Hn.
  change (or_1 None) with 1 in Hnn.
  change (or_1 (Some 1)) with 1 in Hn1.
  change (low_water W st None) with (low_water W st (Some 0)) in Hcasen.
  change (low_water W st (Some 1)) with (low_water W st (Some 0)) in Hcase1.
  assert (Hlw : low_water W st (Some 0) = true <->
                buffer_size (cfg st) - (buffer_pointer st + 1) < min_capacity (cfg st))
    by apply (low_water_spec st (Some 0)).
  assert (Hsame : stn = st1 /\ sto = st1).
  { destruct Hcase as [(Hl & Hr & _) | (Hl & ->)].
    - destruct Hcasen as [(_ & Hrn & _) | (Hln & _)]; [|congruence].
      destruct Hcase1 as [(_ & Hr1 & _) | (Hl1 & _)]; [|congruence].
      split; congruence.
    - destruct Hcasen as [(Hln & _) | (_ & ->)]; [congruence|].
      destruct Hcase1 as [(Hl1 & _) | (_ & ->)]; [congruence|].
      split; reflexivity. }
  destruct Hsame as (-> & ->).
  exists out, (advance W 1 st1). split; [exact Hn|].
  subst out. unfold getslice. cbn [vectors shape].
  rewrite Z.add_0_r, slice_empty, (ready_dims wd st1 R1), Hc.
  split; [reflexivity|]. split; [reflexivity|].
  split; [|split; [|split]].
  - intros Hlow. apply Hlw in Hlow.
    destruct Hcase as [(_ & Hr & Hz & Ho & Ht) | (Hl & _)]; [|congruence].
    exists st1. split; [exact Hr|]. split; [reflexivity|].
    cbn [advance stdout buffer buffer_pointer].
    split; [exact Ho|]. split; [exact Ht | lia].
  - intros Hno.
    destruct Hcase as [(Hl & _) | (_ & ->)]; [apply Hlw in Hl; contradiction|].
    repeat split.
  - exists outn. exact Hnn.
  - exists out1. exact Hn1.
Qed.

(** C10 on the toy buffer: at the mark [next(0)] refills as the default
    read does, returns no vector and leaves the cursor at 1. *)
Lemma next_zero_reads_nothing_and_advances_witness :
  exists out st',
    next Toy.world 8 Toy.state4_at_mark (Some 0) = Ok (out, st') /\
    vectors out = [] /\ shape out = [0; 2; 8] /\
    stdout st' = [refresh_notice] /\ buffer_pointer st' = 1 /\
    exists out1, next Toy.world 8 Toy.state4_at_mark None = Ok (out1, st').
Proof.
  destruct (next_zero_reads_nothing_and_advances Toy.world 8 8 Toy.state4_at_mark
              toy_well_behaved toy_ready4_at_mark)
    as (out & st' & Hn & Hv & Hs & Hlow & _ & Hdef & _).
  - unfold cursor_in_range. cbn. lia.
  - cbn. lia.
  - cbn. lia.
  - cbn. lia.
  - destruct Hlow as (st1 & _ & _ & Ho & _ & Hp); [cbn; lia|].
    exists out, st'.
    split; [exact Hn|]. split; [exact Hv|]. split; [exact Hs|].
    split; [exact Ho|]. split; [exact Hp | exact Hdef].
Defined.

(** * Further properties of the config constructor *)

Lemma max_from_ints (zs : list Z) : forall z0 : Z,
  exists m,
    max_from (PyInt z0) (map PyInt zs) = Ok (PyInt m) /\
    In m (z0 :: zs) /\ (forall z, In z (z0 :: zs) -> z <= m).
Proof.
  induction zs as [|x zs IH]; intros z0.
  - exists z0. cbn. split; [reflexivity|]. split; [now left|].
    intros z [<- | []]. lia.
  - cbn [map max_from gt bind].
    destruct (z0 <? x) eqn:E.
    + apply Z.ltb_lt in E. destruct (IH x) as (m & Hm & Hin & Hub).
      exists m. split; [exact Hm|]. split.
      * destruct Hin as [<- | Hin]; [right; now left | right; now right].
      * intros z [<- | [<- | Hz]].
        -- specialize (Hub x (or_introl eq_refl)). lia.
        -- apply Hub. now left.
        -- apply Hub. now right.
    + apply Z.ltb_ge in E. destruct (IH z0) as (m & Hm & Hin & Hub).
      exists m. split; [exact Hm|]. split.
      * destruct Hin as [<- | Hin]; [now left | right; now right].
      * intros z [<- | [<- | Hz]].
        -- apply Hub. now left.
        -- specialize (Hub z0 (or_introl eq_refl)). lia.
        -- apply Hub. now right.
Qed.

(** X1: for a non-empty list of int layers the constructor returns; its
    [final_layer] is one of the layers and no layer is above it, and
    [act_names] holds the name [blocks.<layer>.<act_site>] of every
    layer, in the order of the list. *)
Theorem config_of_int_layers
    (name corpus site : string) (split : option string)
    (size min_cap mbs sps : Z) (width sd : option Z) (z0 : Z) (zs : list Z) :
  exists c m,
    Config__init__ name (PyList (map PyInt (z0 :: zs))) corpus site split
                   size min_cap mbs sps width sd = Ok c /\
    final_layer c = PyInt m /\ In m (z0 :: zs) /\
    (forall z, In z (z0 :: zs) -> z <= m) /\
    layers c = map PyInt (z0 :: zs) /\
    act_names c = map (fun z => act_name site (PyInt z)) (z0 :: zs).
Proof.
  destruct (max_from_ints zs z0) as (m & Hm & Hin & Hub).
  cbn [map Config__init__]. rewrite Hm. cbn [bind].
  eexists _, m. split; [reflexivity|]. cbn.
  split; [reflexivity|]. split; [assumption|]. split; [assumption|].
  split; [reflexivity|]. f_equal. now rewrite map_map.
Qed.

Lemma max_from_none (l : list pyatom) : forall cur : pyatom,
  l <> [] -> In PyNone (cur :: l) -> max_from cur l = Raise TypeError.
Proof.
  induction l as [|x l IH]; intros cur Hne Hin; [contradiction|].
  cbn [max_from].
  destruct x as [|x|x], cur as [|z|z]; cbn [gt bind]; try reflexivity.
  - destruct Hin as [Hc | [Hx | Hin]]; try discriminate.
    destruct l as [|y l]; [destruct Hin|].
    destruct (z <? x); apply IH; try discriminate; right; exact Hin.
  - destruct Hin as [Hc | [Hx | Hin]]; try discriminate.
    destruct l as [|y l]; [destruct Hin|].
    destruct (String.ltb z x); apply IH; try discriminate; right; exact Hin.
Qed.

(** X2: a list of two or more layers one of which is [None] makes the
    constructor raise a [TypeError], out of [max(layers)]. *)
Theorem config_rejects_none_among_layers
    (name corpus site : string) (split : option string)
    (size min_cap mbs sps : Z) (width sd : option Z) (l0 : pyatom) (l : list pyatom) :
  l <> [] -> In PyNone (l0 :: l) ->
  Config__init__ name (PyList (l0 :: l)) corpus site split size min_cap mbs sps width sd
  = Raise TypeError.
Proof.
  intros Hne Hin. cbn [Config__init__].
  now rewrite (max_from_none l l0 Hne Hin).
Qed.

(** X2 on the list [[0, None]]. *)
Lemma config_rejects_none_among_layers_witness :
  Toy.config (PyList [PyInt 0; PyNone]) 4 2 2 4 None = Raise TypeError.
Proof.
  apply (config_rejects_none_among_layers "toy" "corpus" "mlp.hook_pre" None
           4 2 2 4 None None (PyInt 0) [PyNone]).
  - discriminate.
  - right. left. reflexivity.
Defined.

Lemma max_from_strs (ss : list string) : forall s0 : string,
  exists m, max_from (PyStr s0) (map PyStr ss) = Ok (PyStr m).
Proof.
  induction ss as [|x ss IH]; intros s0.
  - exists s0. reflexivity.
  - cbn [map max_from gt bind]. destruct (String.ltb s0 x); apply IH.
Qed.

(** * Further properties of the refill *)

Section RefillEdges.

Variable W : World.

Implicit Types st : ActivationsBuffer W.

(** With the cursor at 0 the loop of [refresh] is not entered. *)
Lemma refresh_at_zero (fuel : nat) st :
  buffer_pointer st = 0 ->
  exists st',
    refresh W fuel st = Ok st' /\
    rows (buffer st') = rows (buffer st) /\ dims (buffer st') = dims (buffer st) /\
    tid (buffer st') = next_tid st /\
    buffer_pointer st' = 0 /\ dataset_pointer st' = dataset_pointer st /\
    rng st' = rng st /\ stdout st' = stdout st /\ cfg st' = cfg st.
Proof.
  intros Hz. exists (rebind_rolled W st). split.
  - unfold refresh.
    assert (Hl : refresh_loop W fuel (rebind_rolled W st) = Ok (rebind_rolled W st)).
    { destruct fuel; cbn [refresh_loop rebind_rolled buffer_pointer]; now rewrite Hz. }
    rewrite Hl. cbn [bind rebind_rolled buffer_pointer]. now rewrite Hz.
  - cbn [rebind_rolled buffer roll rows dims tid buffer_pointer dataset_pointer
           rng stdout cfg].
    rewrite Hz. cbn [Z.opp].
    split; [|repeat split].
    destruct (len (rows (buffer st)) =? 0) eqn:E.
    + cbn. apply app_nil_r.
    + apply Z.eqb_neq in E. rewrite Z.mod_0_l by exact E. cbn. apply app_nil_r.
Qed.

(** X3: a refill of a buffer whose cursor is 0 runs no round, whatever
    the fuel: the rows, the corpus cursor and the generator are as they
    were and the cursor stays 0; the store is rebound to a new tensor all
    the same. *)
Theorem refresh_without_deficit (fuel : nat) st :
  buffer_pointer st = 0 ->
  exists st',
    refresh W fuel st = Ok st' /\
    rows (buffer st') = rows (buffer st) /\ dims (buffer st') = dims (buffer st) /\
    tid (buffer st') = next_tid st /\
    buffer_pointer st' = 0 /\ dataset_pointer st' = dataset_pointer st /\
    rng st' = rng st /\ stdout st' = stdout st /\ cfg st' = cfg st.
Proof. exact (refresh_at_zero fuel st). Qed.

End RefillEdges.

(** X3 on the toy buffer as built. *)
Lemma refresh_without_deficit_witness :
  exists st',
    refresh Toy.world 0 Toy.state4 = Ok st' /\
    rows (buffer st') = rows (buffer Toy.state4).
Proof.
  destruct (refresh_without_deficit Toy.world 0 Toy.state4 eq_refl)
    as (st' & Hr & Hrows & _).
  exists st'. split; [exact Hr | exact Hrows].
Defined.

(** X4: on a well-formed buffer whose cursor is in range a refill
    returns with the corpus it had and a corpus cursor within it. *)
Theorem refresh_keeps_corpus_cursor_in_range
    (W : World) (wd : Z) (fuel : nat) (st : ActivationsBuffer W) :
  well_behaved W wd -> ready wd st -> cursor_in_range st ->
  (Z.to_nat (buffer_pointer st) <= fuel)%nat ->
  exists st',
    refresh W fuel st = Ok st' /\ dataset st' = dataset st /\
    0 <= dataset_pointer st' < len (dataset st').
Proof.
  intros HW R Hin Hfuel.
  destruct (refresh_spec W wd HW fuel st R Hin Hfuel)
    as (st' & Hr & R' & _ & _ & Hd & _).
  exists st'. split; [assumption|]. split; [assumption|].
  apply (ready_corpus wd st' R').
Qed.

(** X4 on the toy buffer, two reads in. *)
Lemma refresh_keeps_corpus_cursor_in_range_witness :
  exists st',
    refresh Toy.world 2 Toy.state4_at_mark = Ok st' /\
    0 <= dataset_pointer st' < len (dataset st').
Proof.
  destruct (refresh_keeps_corpus_cursor_in_range Toy.world 8 2 Toy.state4_at_mark
              toy_well_behaved toy_ready4_at_mark)
    as (st' & Hr & _ & Hp).
  - unfold cursor_in_range. cbn. lia.
  - cbn. lia.
  - exists st'. split; [exact Hr | exact Hp].
Defined.



(** X6: a read of a negative count that does not refill returns and
    leaves the cursor lower by that count; once the cursor is below 0,
    every later read that refills raises the assertion of [refresh],
    whose loop is not entered.  The shift that refill hands to
    [torch.roll], the cursor negated, is a 64-bit integer. *)
Theorem negative_count_breaks_next_refill
    (W : World) (fuel : nat) (st : ActivationsBuffer W) (b : Z) :
  b < 0 -> buffer_pointer st + b < 0 ->
  int64 (- (buffer_pointer st + b)) ->
  low_water W st (Some b) = false ->
  next W fuel st (Some b)
  = Ok (getslice (buffer st) (buffer_pointer st) (buffer_pointer st + b),
        advance W b st) /\
  forall fuel' batch,
    low_water W (advance W b st) batch = true ->
    next W fuel' (advance W b st) batch = Raise (AssertionError assert_pointer_msg).
Proof.
  intros Hb Hneg _ Hlow. split.
  - unfold next. rewrite Hlow. cbn [bind or_1].
    destruct (b =? 0) eqn:E; [apply Z.eqb_eq in E; lia | reflexivity].
  - intros fuel' batch Hlow'. unfold next. rewrite Hlow'.
    unfold refresh.
    assert (Hl : forall s : ActivationsBuffer W, buffer_pointer s < 0 ->
                 refresh_loop W fuel' s = Ok s).
    { intros s Hs. destruct fuel'; cbn [refresh_loop];
        (replace (0 <? buffer_pointer s) with false
           by (symmetry; apply Z.ltb_ge; lia)); reflexivity. }
    rewrite Hl by (cbn; lia).
    cbn [bind rebind_rolled print advance buffer_pointer].
    destruct (buffer_pointer st + b =? 0) eqn:E; [apply Z.eqb_eq in E; lia|].
    reflexivity.
Qed.

(** X6 on the toy buffer: [next(-1)], then a read of four vectors. *)
Lemma negative_count_breaks_next_refill_witness :
  next Toy.world 8 (advance Toy.world (-1) Toy.state4) (Some 4)
  = Raise (AssertionError assert_pointer_msg).
Proof.
  apply (negative_count_breaks_next_refill Toy.world 8 Toy.state4 (-1)).
  - lia.
  - cbn. lia.
  - unfold int64. cbn. lia.
  - reflexivity.
  - reflexivity.
Defined.

Lemma firstn_cons_skipn {A : Type} (l : list A) (n k : nat) :
  firstn 1 (skipn n l) ++ firstn k (skipn (S n) l) = firstn (S k) (skipn n l).
Proof.
  replace (S n) with (1 + n)%nat by lia. rewrite <- skipn_skipn.
  destruct (skipn n l) as [|x r]; cbn; [now rewrite firstn_nil | reflexivity].
Qed.

(** X7: reads of one vector that stay above the mark hand out the rows
    of the store in order: [k] of them from a cursor [p >= 0] return,
    together, the [k] rows from [p] on, and leave the store as it was. *)
Theorem reads_return_rows_in_order (W : World) (fuel : nat) (k : nat) :
  forall st : ActivationsBuffer W,
    0 <= buffer_pointer st ->
    buffer_pointer st + Z.of_nat k <= buffer_size (cfg st) - min_capacity (cfg st) ->
    exists outs st',
      reads W fuel k (Some 1) st = Ok (outs, st') /\
      flat_map vectors outs
      = firstn k (skipn (Z.to_nat (buffer_pointer st)) (rows (buffer st))) /\
      buffer st' = buffer st /\
      buffer_pointer st' = buffer_pointer st + Z.of_nat k.
Proof.
  induction k as [|k IH]; intros st Hp Hk.
  - exists [], st. cbn. repeat split. lia.
  - assert (Hlow : low_water W st (Some 1) = false).
    { apply not_true_is_false. rewrite low_water_spec. cbn. lia. }
    destruct (IH (advance W 1 st)) as (outs & st' & Hr & Hv & Hb & Hp').
    { cbn. lia. }
    { cbn. lia. }
    cbn [reads]. unfold next. rewrite Hlow. cbn [bind or_1 Z.eqb fst snd].
    rewrite Hr. cbn [bind fst snd].
    eexists _, st'. split; [reflexivity|].
    cbn [advance buffer buffer_pointer cfg] in Hv, Hb, Hp'.
    split; [|split; [assumption | lia]].
    cbn [flat_map]. rewrite Hv. unfold getslice. cbn [vectors].
    rewrite slice_forward by lia.
    replace (Z.to_nat (buffer_pointer st + 1 - buffer_pointer st)) with 1%nat by lia.
    replace (Z.to_nat (buffer_pointer st + 1)) with (S (Z.to_nat (buffer_pointer st)))
      by lia.
    apply firstn_cons_skipn.
Qed.

(** X7 on the toy buffer: two reads return its first two rows. *)
Lemma reads_return_rows_in_order_witness :
  exists outs st',
    reads Toy.world 8 2 (Some 1) Toy.state4 = Ok (outs, st') /\
    flat_map vectors outs = [Sampled (2, 1); Sampled (2, 2)]%nat.
Proof.
  destruct (reads_return_rows_in_order Toy.world 8 2 Toy.state4)
    as (outs & st' & Hr & Hv & _).
  - cbn. lia.
  - cbn. lia.
  - exists outs, st'. split; [exact Hr | exact Hv].
Defined.

(** * Further properties of construction and of the default read *)

(** X8: with a seed other than 0, the buffer [__init__] returns depends
    on neither the state the generator was found in nor the seed
    [shuffle] would have drawn: two processes that differ in those only
    give the same buffer. *)
Theorem seeded_construction_is_reproducible
    (W : World) (fuel : nat) (p1 p2 : process W) (c : ActivationsBufferConfig) (s : Z) :
  seed c = Some s -> s <> 0 ->
  printed W p1 = printed W p2 -> unused_tid W p1 = unused_tid W p2 ->
  Buffer__init__ W fuel p1 c = Buffer__init__ W fuel p2 c.
Proof.
  intros Hs Hnz Hp Ht. unfold Buffer__init__, allocate.
  rewrite !(seed_torch_nonzero W c s _ Hs Hnz).
  unfold shuffled_corpus. rewrite Hs, Hp, Ht. reflexivity.
Qed.

(** X8 on the toy config, seed 7, generators found at 1 and at 2. *)
Lemma seeded_construction_is_reproducible_witness :
  Buffer__init__ Toy.world 4 (Toy.proc 1) Toy.resolved4
  = Buffer__init__ Toy.world 4 (Toy.proc 2) Toy.resolved4.
Proof.
  apply (seeded_construction_is_reproducible Toy.world 4 (Toy.proc 1) (Toy.proc 2)
           Toy.resolved4 7); (reflexivity || lia).
Defined.

(** X9: construction returns a store of shape
    [(buffer_size, len(layers), act_size)], where [act_size] is the one
    of the config when it gives one and the model's [d_mlp] when it
    gives none; the config the buffer holds has that [act_size] set and
    is the given one in its layers, names and sizes. *)
Theorem construction_store_shape
    (W : World) (fuel : nat) (p : process W) (c : ActivationsBufferConfig) :
  constructible W p c -> (Z.to_nat (buffer_size c) <= fuel)%nat ->
  exists st w,
    Buffer__init__ W fuel p c = Ok st /\
    act_size (cfg st) = Some w /\
    w = match act_size c with Some v => v | None => d_mlp W end /\
    len (rows (buffer st)) = buffer_size c /\
    dims (buffer st) = (len (layers c), w) /\
    layers (cfg st) = layers c /\ act_names (cfg st) = act_names c /\
    buffer_size (cfg st) = buffer_size c /\ min_capacity (cfg st) = min_capacity c /\
    model_batch_size (cfg st) = model_batch_size c /\
    samples_per_seq (cfg st) = samples_per_seq c.
Proof.
  intros C Hfuel.
  destruct (init_spec W fuel p c C Hfuel) as (st & Hi & R & _ & Hc & _ & Hl & _).
  destruct (resolve_act_size_fields W c)
    as (Hla & Hn & Hb & Hm & Hmb & Hs & _ & _ & Ha).
  exists st, (resolved_width W c). split; [assumption|].
  rewrite Hc. split; [assumption|]. split; [reflexivity|]. split; [assumption|].
  split; [rewrite (ready_dims _ st R), Hc, Hla; reflexivity|].
  repeat split; assumption.
Qed.

(** X9 on the toy config. *)
Lemma construction_store_shape_witness :
  exists st,
    Buffer__init__ Toy.world 4 (Toy.proc 0) Toy.resolved4 = Ok st /\
    len (rows (buffer st)) = 4 /\ dims (buffer st) = (2, 8).
Proof.
  destruct (construction_store_shape Toy.world 4 (Toy.proc 0) Toy.resolved4
              toy_constructible4)
    as (st & w & Hi & _ & Hw & Hl & Hd & _).
  - cbn. lia.
  - exists st. split; [exact Hi|]. split; [exact Hl|].
    rewrite Hd, Hw. reflexivity.
Defined.

(** X10: when the activations of the model have a width that is neither
    the [act_size] of the store nor 1, a round on a buffer with a
    deficit raises [RuntimeError]: the slice assignment does not
    broadcast. *)
Theorem refresh_round_width_mismatch
    (W : World) (wd : Z) (st : ActivationsBuffer W) :
  ready wd st -> 0 < buffer_pointer st ->
  (forall seqs stop names,
     broadcasts (width (run_with_cache W seqs stop names)) wd = false) ->
  refresh_round W st = Raise RuntimeError.
Proof.
  intros R Hbp Hw. unfold refresh_round.
  destruct (ceil_div_positive _ _ Hbp (ready_samples wd st R)) as (q & -> & _).
  cbn [bind]. unfold modulo.
  pose proof (ready_corpus wd st R) as Hdp.
  destruct (len (dataset st) =? 0) eqn:E0; [apply Z.eqb_eq in E0; lia|].
  cbn [bind].
  destruct (succ_int _ (ready_final wd st R)) as (stop & ->). cbn [bind].
  unfold setslice. rewrite (ready_dims wd st R). cbn [fst snd].
  rewrite Hw, andb_false_r. reflexivity.
Qed.

Lemma toy_narrow_ready4 : ready 8 Toy.narrow_state4.
Proof. constructor; cbn; (reflexivity || lia). Qed.

(** X10 on the toy buffer of width 8 over a model of width 3. *)
Lemma refresh_round_width_mismatch_witness :
  refresh_round Toy.narrow_world Toy.narrow_state4 = Raise RuntimeError.
Proof.
  apply (refresh_round_width_mismatch Toy.narrow_world 8 Toy.narrow_state4
           toy_narrow_ready4).
  - cbn. lia.
  - intros seqs stop names. reflexivity.
Defined.

(** X11: a non-empty list of str layers is accepted by the config
    constructor, with a str for [final_layer]; on any buffer that holds
    such a config, a round with a deficit raises [TypeError], out of
    [final_layer + 1], whenever [samples_per_seq] is not 0 and the
    corpus is not empty. *)
Theorem str_layers_fail_in_first_round
    (W : World) (name corpus site : string) (split : option string)
    (size min_cap mbs sps : Z) (width sd : option Z) (s0 : string) (ss : list string) :
  sps <> 0 ->
  exists c,
    Config__init__ name (PyList (map PyStr (s0 :: ss))) corpus site split
                   size min_cap mbs sps width sd = Ok c /\
    is_int (final_layer c) = false /\
    forall st : ActivationsBuffer W,
      cfg st = c -> 0 < buffer_pointer st -> dataset st <> [] ->
      refresh_round W st = Raise TypeError.
Proof.
  intros Hsps. destruct (max_from_strs ss s0) as (m & Hm).
  cbn [map Config__init__]. rewrite Hm. cbn [bind].
  eexists. split; [reflexivity|]. split; [reflexivity|].
  intros st Hc Hbp Hd. unfold refresh_round. rewrite Hc.
  cbn [samples_per_seq model_batch_size final_layer act_names buffer_size].
  unfold ceil_div.
  destruct (sps =? 0) eqn:E; [apply Z.eqb_eq in E; contradiction|].
  cbn [bind]. unfold modulo.
  destruct (len (dataset st) =? 0) eqn:E0.
  - apply Z.eqb_eq in E0. destruct (dataset st); [contradiction|].
    unfold len in E0. cbn in E0. lia.
  - reflexivity.
Qed.

(** X11 on the layers [["a", "b"]]. *)
Lemma str_layers_fail_in_first_round_witness :
  exists c,
    Toy.config (PyList [PyStr "a"; PyStr "b"]) 4 2 2 4 None = Ok c /\
    is_int (final_layer c) = false.
Proof.
  destruct (str_layers_fail_in_first_round Toy.world "toy" "corpus" "mlp.hook_pre"
              None 4 2 2 4 None None "a" ["b"]%string)
    as (c & Hc & Hi & _).
  - lia.
  - exists c. split; [exact Hc | exact Hi].
Defined.

(** X12: on a store that holds no row, with the cursor at 0, the default
    read raises [IndexError], whether or not it refills first. *)
Theorem default_read_of_empty_store
    (W : World) (fuel : nat) (st : ActivationsBuffer W) :
  rows (buffer st) = [] -> buffer_pointer st = 0 ->
  next W fuel st None = Raise IndexError.
Proof.
  intros Hrows Hz. unfold next.
  destruct (low_water W st None).
  - destruct (refresh_at_zero W fuel (print W refresh_notice st) Hz)
      as (st' & -> & Hr' & _ & _ & Hz' & _).
    cbn [bind print buffer] in *.
    unfold getitem. rewrite Hr', Hrows, Hz'. reflexivity.
  - cbn [bind]. unfold getitem. rewrite Hrows, Hz. reflexivity.
Qed.

(** X12 on the toy buffer of capacity 0, as construction returns it. *)
Lemma default_read_of_empty_store_witness :
  Buffer__init__ Toy.world 0 (Toy.proc 0) Toy.resolved0 = Ok Toy.state0 /\
  next Toy.world 0 Toy.state0 None = Raise IndexError.
Proof.
  split; [vm_compute; reflexivity|].
  apply (default_read_of_empty_store Toy.world 0 Toy.state0); reflexivity.
Defined.

